(** * VirtualOS button component: debounce filter and click state machine

    Shallow embedding of [Utilities/button/button.c].  The C code mutates a
    [button_t] through a pointer; here every function takes the structure and
    returns the updated one.  The two external function pointers of an
    instance (the level reader and the event callback) are kept as nullable
    tokens: the byte returned by the reader on a tick is an argument of the
    scan, and the events handed to the callback are collected in a list. *)

From Stdlib Require Import ZArith List Bool Lia.
Import ListNotations.
Local Open Scope Z_scope.

(** ** Types of button.h *)

(** Modelled from the spec: [button_level_e] is declared in button.h, which
    is not part of the sources; the active level is one of two digital
    levels, and [BUTTON_LEVEL_HIGH] is the value xor-ed in [button_ctor] to
    complement it. *)
Inductive button_level_e : Type :=
| BUTTON_LEVEL_LOW
| BUTTON_LEVEL_HIGH.

Definition level_val (l : button_level_e) : Z :=
  match l with
  | BUTTON_LEVEL_LOW => 0
  | BUTTON_LEVEL_HIGH => 1
  end.

(** Modelled from the spec: the event kinds of button.h, in the order of the
    interface section (None, Popup, SingleClick, DoubleClick, MoreClick,
    LongClick). *)
Inductive button_event_e : Type :=
| BTN_EVENT_NONE
| BTN_EVENT_POPUP
| BTN_EVENT_SINGLE_CLICK
| BTN_EVENT_DOUBLE_CLICK
| BTN_EVENT_MORE_CLICK
| BTN_EVENT_LONG_CLICK.

Definition button_event_eqb (x y : button_event_e) : bool :=
  match x, y with
  | BTN_EVENT_NONE, BTN_EVENT_NONE
  | BTN_EVENT_POPUP, BTN_EVENT_POPUP
  | BTN_EVENT_SINGLE_CLICK, BTN_EVENT_SINGLE_CLICK
  | BTN_EVENT_DOUBLE_CLICK, BTN_EVENT_DOUBLE_CLICK
  | BTN_EVENT_MORE_CLICK, BTN_EVENT_MORE_CLICK
  | BTN_EVENT_LONG_CLICK, BTN_EVENT_LONG_CLICK => true
  | _, _ => false
  end.

(** The payload handed to the callback: event kind and click count. *)
Record button_ev_t : Type := mk_ev {
  ev_type : button_event_e;
  clicks : Z
}.

(** The logical input of the state machine (button.c, lines 34-37). *)
Inductive BTN_IO_EVENT_E : Type :=
| BTN_IO_EVENT_UP
| BTN_IO_EVENT_DOWN.

(** A non-null function pointer is an opaque token; [None] is [NULL]. *)
Definition fn_ptr : Type := positive.

(** The value of [state.state]: the address of one of the six handlers. *)
Inductive on_state_handler : Type :=
| Idle
| Up
| Down
| DownShort
| UpSuspense
| DownLong.

Record button_cfg_t : Type := mk_cfg {
  f_io_read : option fn_ptr;
  active_lv : button_level_e;
  up_max_cnt : Z;
  long_min_cnt : Z
}.

Record btn_jitter : Type := mk_jit {
  asserted : Z;
  previous : Z
}.

(** The field [state.state] of the C structure is called [handler] here,
    since [state] already names the enclosing member of [button_t]. *)
Record btn_state : Type := mk_state {
  handler : option on_state_handler;
  counter : Z;
  click_cnt : Z;
  jit : btn_jitter
}.

Record button_t : Type := mk_button {
  cfg : button_cfg_t;
  f_ev_cb : option fn_ptr;
  state : btn_state
}.

(** Field assignments through [p_btn->state]. *)
Definition set_handler (h : option on_state_handler) (b : button_t) : button_t :=
  mk_button (cfg b) (f_ev_cb b)
    (mk_state h (counter (state b)) (click_cnt (state b)) (jit (state b))).

Definition set_counter (v : Z) (b : button_t) : button_t :=
  mk_button (cfg b) (f_ev_cb b)
    (mk_state (handler (state b)) v (click_cnt (state b)) (jit (state b))).

Definition set_click_cnt (v : Z) (b : button_t) : button_t :=
  mk_button (cfg b) (f_ev_cb b)
    (mk_state (handler (state b)) (counter (state b)) v (jit (state b))).

Definition set_jit (j : btn_jitter) (b : button_t) : button_t :=
  mk_button (cfg b) (f_ev_cb b)
    (mk_state (handler (state b)) (counter (state b)) (click_cnt (state b)) j).

Definition set_f_io_read (f : option fn_ptr) (b : button_t) : button_t :=
  mk_button
    (mk_cfg f (active_lv (cfg b)) (up_max_cnt (cfg b)) (long_min_cnt (cfg b)))
    (f_ev_cb b) (state b).

Definition set_f_ev_cb (cb : option fn_ptr) (b : button_t) : button_t :=
  mk_button (cfg b) cb (state b).

(** ** Fixed-width arithmetic *)

Definition wrap (bits x : Z) : Z := x mod 2 ^ bits.

Definition to_uint8 (x : Z) : Z := wrap 8 x.
Definition to_uint32 (x : Z) : Z := wrap 32 x.

(** Modelled from the spec: the widths of [jit.asserted] and [jit.previous]
    are declared in button.h, which is not part of the sources; the data
    model describes both as single-bit values, so a store keeps bit 0. *)
Definition to_jit (x : Z) : Z := Z.land x 1.

Definition is_level (x : Z) : Prop := x = 0 \/ x = 1.

Section Button.

(** The widths of [state.counter] and [state.click_cnt] are declared in
    button.h; the code is embedded for any pair of widths. *)
Variable counter_bits : Z.
Variable click_bits : Z.

Definition to_counter (x : Z) : Z := wrap counter_bits x.
Definition to_click (x : Z) : Z := wrap click_bits x.

(** ** dispatch_click_type (lines 56-65) *)

Definition click_type : list button_event_e :=
  [BTN_EVENT_NONE; BTN_EVENT_SINGLE_CLICK; BTN_EVENT_DOUBLE_CLICK].

Definition dispatch_click_type (click_cnt : Z) : button_event_e :=
  let c := to_uint32 click_cnt in
  if c <? 3 then nth (Z.to_nat c) click_type BTN_EVENT_NONE
  else BTN_EVENT_MORE_CLICK.

(** ** The state handlers (lines 71-164) *)

Definition on_idle_handler (p_btn : button_t) (io_ev : BTN_IO_EVENT_E)
  : button_event_e * button_t :=
  match io_ev with
  | BTN_IO_EVENT_UP => (BTN_EVENT_NONE, set_handler (Some Up) p_btn)
  | BTN_IO_EVENT_DOWN =>
      (BTN_EVENT_NONE,
       set_handler (Some Down) (set_click_cnt 1 (set_counter 0 p_btn)))
  end.

Definition on_up_handler (p_btn : button_t) (io_ev : BTN_IO_EVENT_E)
  : button_event_e * button_t :=
  match io_ev with
  | BTN_IO_EVENT_DOWN =>
      (BTN_EVENT_NONE,
       set_handler (Some Down) (set_click_cnt 1 (set_counter 0 p_btn)))
  | BTN_IO_EVENT_UP => (BTN_EVENT_NONE, p_btn)
  end.

Definition on_up_suspense_handler (p_btn : button_t) (io_ev : BTN_IO_EVENT_E)
  : button_event_e * button_t :=
  match io_ev with
  | BTN_IO_EVENT_UP =>
      let b1 := set_counter (to_counter (counter (state p_btn) + 1)) p_btn in
      if counter (state b1) >=? up_max_cnt (cfg b1) then
        let b2 := set_counter 0 b1 in
        (dispatch_click_type (click_cnt (state b2)), set_handler (Some Up) b2)
      else (BTN_EVENT_NONE, b1)
  | BTN_IO_EVENT_DOWN =>
      let b1 := set_counter 0 p_btn in
      let b2 := set_click_cnt (to_click (click_cnt (state b1) + 1)) b1 in
      (BTN_EVENT_NONE, set_handler (Some DownShort) b2)
  end.

Definition on_down_handler (p_btn : button_t) (io_ev : BTN_IO_EVENT_E)
  : button_event_e * button_t :=
  match io_ev with
  | BTN_IO_EVENT_UP =>
      (BTN_EVENT_POPUP, set_handler (Some UpSuspense) (set_counter 0 p_btn))
  | BTN_IO_EVENT_DOWN =>
      let b1 := set_counter (to_counter (counter (state p_btn) + 1)) p_btn in
      if counter (state b1) >=? long_min_cnt (cfg b1) then
        (BTN_EVENT_LONG_CLICK, set_handler (Some DownLong) (set_counter 0 b1))
      else (BTN_EVENT_NONE, b1)
  end.

Definition on_down_short_handler (p_btn : button_t) (io_ev : BTN_IO_EVENT_E)
  : button_event_e * button_t :=
  match io_ev with
  | BTN_IO_EVENT_UP =>
      (BTN_EVENT_POPUP, set_handler (Some UpSuspense) (set_counter 0 p_btn))
  | BTN_IO_EVENT_DOWN =>
      let b1 := set_counter (to_counter (counter (state p_btn) + 1)) p_btn in
      if counter (state b1) >=? up_max_cnt (cfg b1) then
        let b2 := set_counter 0 b1 in
        (dispatch_click_type (click_cnt (state b2)),
         set_handler (Some DownLong) b2)
      else (BTN_EVENT_NONE, b1)
  end.

Definition on_down_long_handler (p_btn : button_t) (io_ev : BTN_IO_EVENT_E)
  : button_event_e * button_t :=
  match io_ev with
  | BTN_IO_EVENT_UP => (BTN_EVENT_POPUP, set_handler (Some Up) p_btn)
  | BTN_IO_EVENT_DOWN => (BTN_EVENT_NONE, p_btn)
  end.

(** Calling through the pointer stored in [state.state]. *)
Definition call_handler (h : on_state_handler)
  : button_t -> BTN_IO_EVENT_E -> button_event_e * button_t :=
  match h with
  | Idle => on_idle_handler
  | Up => on_up_handler
  | Down => on_down_handler
  | DownShort => on_down_short_handler
  | UpSuspense => on_up_suspense_handler
  | DownLong => on_down_long_handler
  end.

(** ** button_debounce (lines 167-181)

    [line] is the value returned by [cfg.f_io_read()] on this tick. *)
Definition button_debounce (p_btn : button_t) (line : Z) : Z * button_t :=
  let cur_lv := to_uint8 line in
  let j := jit (state p_btn) in
  let a1 := to_jit (Z.lor (asserted j) (Z.land (previous j) cur_lv)) in
  let a2 := to_jit (Z.land a1 (Z.lor (previous j) cur_lv)) in
  let j' := mk_jit a2 (to_jit cur_lv) in
  (to_uint8 (asserted j'), set_jit j' p_btn).

(** ** button_scan (lines 184-205)

    The result is the returned event kind, the instance after the call and
    the list of payloads passed to [f_ev_cb] during the call. *)
Definition scan_result : Type :=
  (button_event_e * option button_t * list button_ev_t)%type.

Definition button_scan (p_btn : option button_t) (line : Z) : scan_result :=
  match p_btn with
  | None => (BTN_EVENT_NONE, None, [])
  | Some b =>
      match f_io_read (cfg b), handler (state b) with
      | Some _, Some _ =>
          let '(cur_level, b1) := button_debounce b line in
          let '(ev, b2) :=
            match handler (state b1) with
            | Some h =>
                if cur_level =? level_val (active_lv (cfg b1))
                then call_handler h b1 BTN_IO_EVENT_DOWN
                else call_handler h b1 BTN_IO_EVENT_UP
            | None => (BTN_EVENT_NONE, b1)
            end in
          let calls :=
            if negb (button_event_eqb ev BTN_EVENT_NONE)
            then match f_ev_cb b2 with
                 | Some _ => [mk_ev ev (click_cnt (state b2))]
                 | None => []
                 end
            else [] in
          (ev, Some b2, calls)
      | _, _ => (BTN_EVENT_NONE, Some b, [])
      end
  end.

(** ** button_ctor (lines 207-223)

    [btn] is the content of the uninitialised local the constructor fills
    in: fields it does not assign keep whatever [btn] holds. *)
Definition button_ctor (p_cfg : option button_cfg_t) (cb : option fn_ptr)
    (btn : button_t) : button_t :=
  match p_cfg with
  | Some c =>
      let prev :=
        to_jit (Z.lxor (level_val (active_lv c)) (level_val BUTTON_LEVEL_HIGH)) in
      mk_button c cb
        (mk_state (Some Idle) (counter (state btn)) (click_cnt (state btn))
           (mk_jit (to_jit prev) prev))
  | None => set_handler None (set_f_io_read None btn)
  end.

(** ** Runs *)

(** Successive scans of one instance, one raw sample per tick. *)
Fixpoint scan_run (p_btn : option button_t) (lines : list Z)
  : list button_event_e * option button_t * list button_ev_t :=
  match lines with
  | [] => ([], p_btn, [])
  | l :: rest =>
      let '(ev, p1, calls) := button_scan p_btn l in
      let '(evs, p2, calls') := scan_run p1 rest in
      (ev :: evs, p2, calls ++ calls')
  end.

(** The outputs of the debounce filter alone over a run of samples. *)
Fixpoint debounce_run (b : button_t) (lines : list Z) : list Z * button_t :=
  match lines with
  | [] => ([], b)
  | l :: rest =>
      let '(lv, b1) := button_debounce b l in
      let '(lvs, b2) := debounce_run b1 rest in
      (lv :: lvs, b2)
  end.

(** One tick of the state machine on a logical input: lines 194-204 of
    [button_scan], after the debounce filter has produced the level. *)
Definition fsm_tick (b : button_t) (io_ev : BTN_IO_EVENT_E)
  : button_event_e * button_t * list button_ev_t :=
  match handler (state b) with
  | Some h =>
      let '(ev, b2) := call_handler h b io_ev in
      let calls :=
        if negb (button_event_eqb ev BTN_EVENT_NONE)
        then match f_ev_cb b2 with
             | Some _ => [mk_ev ev (click_cnt (state b2))]
             | None => []
             end
        else [] in
      (ev, b2, calls)
  | None => (BTN_EVENT_NONE, b, [])
  end.

Fixpoint fsm_run (b : button_t) (ios : list BTN_IO_EVENT_E)
  : list button_event_e * button_t * list button_ev_t :=
  match ios with
  | [] => ([], b, [])
  | io :: rest =>
      let '(ev, b1, calls) := fsm_tick b io in
      let '(evs, b2, calls') := fsm_run b1 rest in
      (ev :: evs, b2, calls ++ calls')
  end.

(** The logical input derived from a debounced level. *)
Definition io_event_of (b : button_t) (cur_level : Z) : BTN_IO_EVENT_E :=
  if cur_level =? level_val (active_lv (cfg b))
  then BTN_IO_EVENT_DOWN else BTN_IO_EVENT_UP.

(** * Vocabulary of the properties *)

(** Both debounce fields hold a binary level. *)
Definition jit_ok (b : button_t) : Prop :=
  is_level (asserted (jit (state b))) /\ is_level (previous (jit (state b))).

(** The stable level after a run of samples (the stored one when the run is
    empty). *)
Definition debounce_out (b : button_t) (lines : list Z) : Z :=
  last (fst (debounce_run b lines)) (asserted (jit (state b))).

(** The output the truth table (0,1)->0, (1,1)->1, (0,0)->0, (1,0)->0
    assigns to a pair (previous sample, current sample). *)
Definition pair_table (p r : Z) : Z :=
  if (p =? 1) && (r =? 1) then 1 else 0.

(** What the callback receives when [ev] is delivered with click count [n]. *)
Definition delivered (cb : option fn_ptr) (ev : button_event_e) (n : Z)
  : list button_ev_t :=
  match cb with
  | Some _ => [mk_ev ev n]
  | None => []
  end.

(** The states in which the button is logically pressed. *)
Definition logically_pressed (h : on_state_handler) : bool :=
  match h with
  | Down | DownShort | DownLong => true
  | Idle | Up | UpSuspense => false
  end.

(** The classification of a click count in the words of the specification:
    0 -> None, 1 -> SingleClick, 2 -> DoubleClick, 3 and more -> MoreClick. *)
Definition classify (n : Z) : button_event_e :=
  if n =? 0 then BTN_EVENT_NONE
  else if n =? 1 then BTN_EVENT_SINGLE_CLICK
  else if n =? 2 then BTN_EVENT_DOUBLE_CLICK
  else BTN_EVENT_MORE_CLICK.

(** The guard of [button_scan] (line 189): the instance pointer, its reader
    or its current state handler is null. *)
Definition disabled (p_btn : option button_t) : bool :=
  match p_btn with
  | None => true
  | Some b =>
      match f_io_read (cfg b), handler (state b) with
      | Some _, Some _ => false
      | _, _ => true
      end
  end.

(** What a tick does to [click_cnt]: a Pressed input sets it to 1 in Idle and
    Up and increments it in UpSuspense; nothing else writes it. *)
Definition click_cnt_after (b : button_t) (io : BTN_IO_EVENT_E) : Z :=
  match io, handler (state b) with
  | BTN_IO_EVENT_DOWN, Some Idle => 1
  | BTN_IO_EVENT_DOWN, Some Up => 1
  | BTN_IO_EVENT_DOWN, Some UpSuspense => to_click (click_cnt (state b) + 1)
  | _, _ => click_cnt (state b)
  end.

(** The complement of the active level: the level of a released button. *)
Definition released_level (a : button_level_e) : Z :=
  match a with
  | BUTTON_LEVEL_LOW => 1
  | BUTTON_LEVEL_HIGH => 0
  end.

(** An instance that has seen nothing but the released level. *)
Definition at_rest (c : button_cfg_t) (b : button_t) : Prop :=
  cfg b = c /\
  (handler (state b) = Some Idle \/ handler (state b) = Some Up) /\
  asserted (jit (state b)) = released_level (active_lv c) /\
  previous (jit (state b)) = released_level (active_lv c).

(** The instance [b] with its machine in state [h], counter [n] and click
    count [k]. *)
Definition in_state (h : on_state_handler) (n k : Z) (b : button_t) : button_t :=
  mk_button (cfg b) (f_ev_cb b) (mk_state (Some h) n k (jit (state b))).

(** The number of counted ticks after which a threshold is met: the
    comparison follows the increment, so a threshold of 0 is met on the
    first counted tick like a threshold of 1. *)
Definition ticks_to_reach (threshold : Z) : nat := Z.to_nat (Z.max 1 threshold).

Ltac fsm_tick_unfold :=
  unfold fsm_tick, in_state;
  cbn [handler state call_handler on_idle_handler on_up_handler
       on_up_suspense_handler on_down_handler on_down_short_handler
       on_down_long_handler set_counter set_handler set_click_cnt
       cfg f_ev_cb counter click_cnt jit].

Ltac decide_geb :=
  rewrite Z.geb_leb;
  match goal with
  | |- context [?x <=? ?y] => destruct (Z.leb_spec x y); [| ]
  end; try lia.

(** Two instances whose state machines agree: everything but the debounce
    fields is equal. *)
Definition same_machine (b b' : button_t) : Prop :=
  cfg b = cfg b' /\
  f_ev_cb b = f_ev_cb b' /\
  handler (state b) = handler (state b') /\
  counter (state b) = counter (state b') /\
  click_cnt (state b) = click_cnt (state b').

(** An active-high button whose click window closes after 3 counted ticks
    and whose long press needs 5, for the concrete runs at the end. *)
Definition cfg_example : button_cfg_t :=
  mk_cfg (Some 1%positive) BUTTON_LEVEL_HIGH 3 5.

(** Arbitrary content for the uninitialised local of [button_ctor]. *)
Definition stack_garbage : button_t :=
  mk_button (mk_cfg None BUTTON_LEVEL_LOW 0 0) None
    (mk_state None 7 9 (mk_jit 1 0)).

Definition btn_example : button_t :=
  button_ctor (Some cfg_example) (Some 2%positive) stack_garbage.

(** Whether the two most recent samples of a run are both 1. *)
Definition last_two_high (lines : list Z) : bool :=
  match rev lines with
  | y :: x :: _ => (x =? 1) && (y =? 1)
  | _ => false
  end.

(** The event kinds of a run that are not None, in order. *)
Definition reported (evs : list button_event_e) : list button_event_e :=
  filter (fun e => negb (button_event_eqb e BTN_EVENT_NONE)) evs.

(** The click-type events. *)
Definition is_click_event (e : button_event_e) : bool :=
  match e with
  | BTN_EVENT_SINGLE_CLICK | BTN_EVENT_DOUBLE_CLICK | BTN_EVENT_MORE_CLICK => true
  | _ => false
  end.

(** What holds of the counters of every instance the constructor and the
    scans can produce: in Down the click count is 1 and the counter is 0 or
    below long_min_cnt; in DownShort and UpSuspense the counter is 0 or below
    up_max_cnt. *)
Definition counter_inv (b : button_t) : Prop :=
  match handler (state b) with
  | Some Down =>
      click_cnt (state b) = 1 /\
      0 <= counter (state b) /\
      (counter (state b) = 0 \/ counter (state b) < long_min_cnt (cfg b))
  | Some DownShort | Some UpSuspense =>
      0 <= counter (state b) /\
      (counter (state b) = 0 \/ counter (state b) < up_max_cnt (cfg b))
  | _ => True
  end.

(** A LongClick payload carries a click count of 1. *)
Definition long_click_has_one (e : button_ev_t) : Prop :=
  ev_type e = BTN_EVENT_LONG_CLICK -> clicks e = 1.

(** What the callback receives when a click window closes with a click
    count of [k]: the classification and the count, unless the
    classification is None. *)
Definition closing_calls (cb : option fn_ptr) (k : Z) : list button_ev_t :=
  if button_event_eqb (dispatch_click_type k) BTN_EVENT_NONE then []
  else delivered cb (dispatch_click_type k) k.

(** Further clicks of a window: each is a release of [r] ticks followed by a
    press of [p] ticks. *)
Fixpoint gap_inputs (gaps : list (nat * nat)) : list BTN_IO_EVENT_E :=
  match gaps with
  | [] => []
  | (r, p) :: rest =>
      repeat BTN_IO_EVENT_UP r ++ repeat BTN_IO_EVENT_DOWN p ++ gap_inputs rest
  end.

Fixpoint gap_events (gaps : list (nat * nat)) : list button_event_e :=
  match gaps with
  | [] => []
  | (r, p) :: rest =>
      BTN_EVENT_POPUP :: repeat BTN_EVENT_NONE (r - 1) ++
      repeat BTN_EVENT_NONE p ++ gap_events rest
  end.

(** The click count after further clicks, each incrementing it in its
    field. *)
Fixpoint clicks_after (k : Z) (gaps : list (nat * nat)) : Z :=
  match gaps with
  | [] => k
  | _ :: rest => clicks_after (to_click (k + 1)) rest
  end.

(** The Popup payloads of the releases that start the gaps. *)
Fixpoint gap_calls (cb : option fn_ptr) (k : Z) (gaps : list (nat * nat))
  : list button_ev_t :=
  match gaps with
  | [] => []
  | _ :: rest =>
      delivered cb BTN_EVENT_POPUP k ++ gap_calls cb (to_click (k + 1)) rest
  end.

(** A gap that keeps the window open: the release and the press each last
    at least one tick and at most up_max_cnt ticks (one tick when
    up_max_cnt is 0). *)
Definition gap_ok (up_max : Z) (g : nat * nat) : Prop :=
  (1 <= fst g)%nat /\ Z.of_nat (fst g) <= Z.max 1 up_max /\
  (1 <= snd g)%nat /\ Z.of_nat (snd g) <= Z.max 1 up_max.

(** The Popup payloads of [n] successive releases of one window, the first
    with a click count of [k]. *)
Fixpoint popup_calls (cb : option fn_ptr) (k : Z) (n : nat) : list button_ev_t :=
  match n with
  | O => []
  | S n' => delivered cb BTN_EVENT_POPUP k ++ popup_calls cb (k + 1) n'
  end.

(** The other active level, a configuration with the other active level,
    and the other level of a binary sample. *)
Definition opposite (a : button_level_e) : button_level_e :=
  match a with
  | BUTTON_LEVEL_LOW => BUTTON_LEVEL_HIGH
  | BUTTON_LEVEL_HIGH => BUTTON_LEVEL_LOW
  end.

Definition flip_cfg (c : button_cfg_t) : button_cfg_t :=
  mk_cfg (f_io_read c) (opposite (active_lv c)) (up_max_cnt c) (long_min_cnt c).

Definition flip_sample (x : Z) : Z := 1 - x.

(** Two instances that differ in polarity only: opposite active levels,
    complemented debounce fields, everything else equal. *)
Definition mirrored (b bf : button_t) : Prop :=
  f_io_read (cfg bf) = f_io_read (cfg b) /\
  active_lv (cfg bf) = opposite (active_lv (cfg b)) /\
  up_max_cnt (cfg bf) = up_max_cnt (cfg b) /\
  long_min_cnt (cfg bf) = long_min_cnt (cfg b) /\
  f_ev_cb bf = f_ev_cb b /\
  handler (state bf) = handler (state b) /\
  counter (state bf) = counter (state b) /\
  click_cnt (state bf) = click_cnt (state b) /\
  jit_ok b /\
  asserted (jit (state bf)) = flip_sample (asserted (jit (state b))) /\
  previous (jit (state bf)) = flip_sample (previous (jit (state b))).

(** A clean run of samples for a filter whose fields hold [a] and [p]:
    a sample that differs from its predecessor meets a filter whose two
    fields agree, that is, the predecessor had been seen twice. *)
Fixpoint clean_from (a p : Z) (lines : list Z) : bool :=
  match lines with
  | [] => true
  | x :: rest => ((x =? p) || (a =? p)) && clean_from p x rest
  end.

(** The raw samples of further clicks and of a whole click window, for an
    active level [act] and a released level [rel]. *)
Fixpoint raw_gaps (act rel : Z) (gaps : list (nat * nat)) : list Z :=
  match gaps with
  | [] => []
  | (r, p) :: rest => repeat rel r ++ repeat act p ++ raw_gaps act rel rest
  end.

Definition raw_clicks (c : button_cfg_t) (p1 : nat) (gaps : list (nat * nat))
    (m : nat) : list Z :=
  repeat (level_val (active_lv c)) p1 ++
  raw_gaps (level_val (active_lv c)) (released_level (active_lv c)) gaps ++
  repeat (released_level (active_lv c)) m.

(** Every run of a gap lasts at least two samples. *)
Definition gap_debounced (g : nat * nat) : Prop :=
  (2 <= fst g)%nat /\ (2 <= snd g)%nat.

(** No two consecutive samples of the run are at the level [act], [prev]
    being the sample before the run. *)
Fixpoint isolated_presses (act prev : Z) (lines : list Z) : bool :=
  match lines with
  | [] => true
  | x :: rest =>
      negb ((x =? act) && (prev =? act)) && isolated_presses act x rest
  end.

(** An instance whose filter output is the released level and whose machine
    is in Idle or Up. *)
Definition resting (c : button_cfg_t) (b : button_t) : Prop :=
  cfg b = c /\
  (handler (state b) = Some Idle \/ handler (state b) = Some Up) /\
  asserted (jit (state b)) = released_level (active_lv c) /\
  is_level (previous (jit (state b))).

Ltac handler_cases h io :=
  destruct h, io; cbn [call_handler on_idle_handler on_up_handler
    on_up_suspense_handler on_down_handler on_down_short_handler
    on_down_long_handler set_counter set_handler set_click_cnt
    cfg f_ev_cb state counter click_cnt handler jit logically_pressed].

(** * Properties *)

(** ** The debounce filter *)

Lemma last_nonempty {A : Type} (l : list A) (x d d' : A) :
  last (x :: l) d = last (d' :: x :: l) d.
Proof. reflexivity. Qed.

Lemma last_default {A : Type} (l : list A) (x d d' : A) :
  last (x :: l) d = last (x :: l) d'.
Proof.
  revert x. induction l as [| y l IH]; intros x; [reflexivity |].
  cbn [last]. apply (IH y).
Qed.

(** The debounce fields are binary in every reachable instance: after
    construction and after every call of the filter, whatever the sample. *)
Lemma to_jit_level (x : Z) : is_level (to_jit x).
Proof.
  unfold is_level, to_jit.
  assert (E : Z.land x 1 = x mod 2) by apply (Z.land_ones x 1 ltac:(lia)).
  rewrite E. pose proof (Z.mod_pos_bound x 2 ltac:(lia)). lia.
Qed.

Lemma button_debounce_jit_ok_any (b : button_t) (line : Z) :
  jit_ok (snd (button_debounce b line)).
Proof. split; apply to_jit_level. Qed.

Lemma button_ctor_jit_ok (c : button_cfg_t) (cb : option fn_ptr)
    (btn : button_t) :
  jit_ok (button_ctor (Some c) cb btn).
Proof. split; apply to_jit_level. Qed.

Lemma debounce_step (b : button_t) (r : Z) :
  jit_ok b -> is_level r ->
  button_debounce b r =
    (let a := asserted (jit (state b)) in
     let p := previous (jit (state b)) in
     if p =? r then r else a,
     set_jit (mk_jit (let a := asserted (jit (state b)) in
                      let p := previous (jit (state b)) in
                      if p =? r then r else a) r) b).
Proof.
  intros [Ha Hp] Hr. unfold button_debounce.
  destruct Ha as [-> | ->], Hp as [-> | ->], Hr as [-> | ->]; reflexivity.
Qed.

Lemma debounce_jit_ok (b : button_t) (r : Z) :
  jit_ok b -> is_level r ->
  jit_ok (snd (button_debounce b r)) /\
  previous (jit (state (snd (button_debounce b r)))) = r /\
  asserted (jit (state (snd (button_debounce b r)))) = fst (button_debounce b r).
Proof.
  intros Hb Hr. rewrite (debounce_step b r Hb Hr). cbn.
  destruct Hb as [Ha Hp].
  repeat split; try assumption.
  unfold is_level in *. destruct (_ =? _); assumption.
Qed.

Lemma debounce_run_app (b : button_t) (l1 l2 : list Z) :
  debounce_run b (l1 ++ l2) =
    (fst (debounce_run b l1) ++ fst (debounce_run (snd (debounce_run b l1)) l2),
     snd (debounce_run (snd (debounce_run b l1)) l2)).
Proof.
  revert b. induction l1 as [| x l1 IH]; intros b; cbn [debounce_run app fst snd].
  - destruct (debounce_run b l2); reflexivity.
  - destruct (button_debounce b x) as [lv b1]. rewrite IH.
    destruct (debounce_run b1 l1) as [o1 b2]; cbn [fst snd].
    destruct (debounce_run b2 l2); reflexivity.
Qed.

Lemma debounce_run_jit_ok (lines : list Z) : forall b : button_t,
  jit_ok b -> Forall is_level lines ->
  jit_ok (snd (debounce_run b lines)) /\
  asserted (jit (state (snd (debounce_run b lines)))) = debounce_out b lines.
Proof.
  unfold debounce_out.
  induction lines as [| x lines IH]; intros b Hb Hl; cbn [debounce_run fst snd last].
  - split; [assumption | reflexivity].
  - inversion Hl as [| ? ? Hx Hl']; subst.
    destruct (debounce_jit_ok b x Hb Hx) as (Hb1 & _ & Ha1).
    destruct (button_debounce b x) as [lv b1]; cbn [fst snd] in *.
    destruct (IH b1 Hb1 Hl') as [Hb2 Ha2].
    destruct (debounce_run b1 lines) as [lvs b2]; cbn [fst snd] in *.
    split; [assumption |].
    rewrite Ha2, Ha1. destruct lvs as [| z lvs]; [reflexivity |].
    rewrite <- last_nonempty. apply last_default.
Qed.

Lemma debounce_out_snoc (b : button_t) (lines : list Z) (y : Z) :
  debounce_out b (lines ++ [y]) =
    fst (button_debounce (snd (debounce_run b lines)) y).
Proof.
  unfold debounce_out. rewrite debounce_run_app. cbn [fst snd debounce_run].
  destruct (button_debounce (snd (debounce_run b lines)) y) as [lv b1].
  cbn [fst]. apply last_last.
Qed.

Lemma debounce_run_snoc_state (b : button_t) (lines : list Z) (y : Z) :
  snd (debounce_run b (lines ++ [y])) =
    snd (button_debounce (snd (debounce_run b lines)) y).
Proof.
  rewrite debounce_run_app. cbn [fst snd debounce_run].
  destruct (button_debounce (snd (debounce_run b lines)) y); reflexivity.
Qed.

(** C4: on every tick the filter computes a' = (a OR (p AND r)) AND (p OR r)
    from the prior stable value a, the prior raw sample p and the current
    raw sample r, returns a', stores a' as the stable value and r as the
    previous sample, and touches nothing else of the instance. *)
Theorem button_debounce_formula (b : button_t) (r : Z) :
  jit_ok b -> is_level r ->
  let a := asserted (jit (state b)) in
  let p := previous (jit (state b)) in
  let a' := Z.land (Z.lor a (Z.land p r)) (Z.lor p r) in
  button_debounce b r = (a', set_jit (mk_jit a' r) b).
Proof.
  intros [Ha Hp] Hr. unfold button_debounce.
  destruct Ha as [-> | ->], Hp as [-> | ->], Hr as [-> | ->]; reflexivity.
Qed.

(** What the filter does over a run of binary samples: the output after
    the last sample is the common value of the two most recent samples when
    they agree, and the previous output when they differ.  Hence it is 1
    exactly when both are 1, or when the previous output was 1 and one of
    the two is 1; it follows the table (0,1)->0, (1,1)->1, (0,0)->0,
    (1,0)->0 when the previous output is 0. *)
Theorem debounce_two_sample_hysteresis (b : button_t) (lines : list Z) (x y : Z) :
  jit_ok b -> Forall is_level lines -> is_level x -> is_level y ->
  debounce_out b (lines ++ [x; y]) =
    (if x =? y then y else debounce_out b (lines ++ [x])) /\
  (debounce_out b (lines ++ [x; y]) = 1 <->
     (x = 1 /\ y = 1) \/
     (debounce_out b (lines ++ [x]) = 1 /\ (x = 1 \/ y = 1))) /\
  (debounce_out b (lines ++ [x]) = 0 ->
     debounce_out b (lines ++ [x; y]) = pair_table x y).
Proof.
  intros Hb Hl Hx Hy.
  assert (Hl1 : Forall is_level (lines ++ [x])).
  { apply Forall_app. split; [assumption | constructor; [assumption | constructor]]. }
  destruct (debounce_run_jit_ok (lines ++ [x]) b Hb Hl1) as [Hb1 Ha1].
  assert (Hp1 : previous (jit (state (snd (debounce_run b (lines ++ [x]))))) = x).
  { rewrite debounce_run_snoc_state.
    destruct (debounce_run_jit_ok lines b Hb Hl) as [Hb0 _].
    apply (debounce_jit_ok _ x Hb0 Hx). }
  replace (lines ++ [x; y]) with ((lines ++ [x]) ++ [y])
    by (rewrite <- app_assoc; reflexivity).
  rewrite (debounce_out_snoc b (lines ++ [x]) y).
  rewrite (debounce_step _ y Hb1 Hy). cbn [fst]. rewrite Hp1, Ha1.
  destruct Hb1 as [Ho _]. rewrite Ha1 in Ho.
  set (o := debounce_out b (lines ++ [x])) in *. clearbody o.
  unfold pair_table.
  destruct Ho as [-> | ->], Hx as [-> | ->], Hy as [-> | ->]; cbn;
    (split; [reflexivity | split; [split | intros Ho0]]);
    try reflexivity; try discriminate; try lia.
Qed.

(** ** The state machine, one tick at a time *)

Lemma wrap_bounds (bits x : Z) : 0 <= x -> 0 <= wrap bits x <= x.
Proof.
  intros Hx. unfold wrap.
  assert (Hp : 0 <= 2 ^ bits) by apply Z.pow_nonneg, Z.le_0_2.
  destruct (Z.eq_dec (2 ^ bits) 0) as [E | E].
  - rewrite E, Z.mod_0_r. lia.
  - split.
    + apply Z.mod_pos_bound. lia.
    + apply Z.mod_le; lia.
Qed.

Lemma wrap_small (bits x : Z) : 0 <= x < 2 ^ bits -> wrap bits x = x.
Proof. intros H. unfold wrap. apply Z.mod_small. exact H. Qed.

Lemma dispatch_click_type_classify (n : Z) :
  0 <= n < 2 ^ 32 -> dispatch_click_type n = classify n.
Proof.
  intros Hn. unfold dispatch_click_type, classify, to_uint32.
  rewrite (wrap_small 32 n Hn).
  destruct (Z.ltb_spec n 3) as [H3 | H3].
  - assert (Hc : n = 0 \/ n = 1 \/ n = 2) by lia.
    destruct Hc as [-> | [-> | ->]]; reflexivity.
  - destruct (Z.eqb_spec n 0); [lia |].
    destruct (Z.eqb_spec n 1); [lia |].
    destruct (Z.eqb_spec n 2); [lia | reflexivity].
Qed.

Lemma button_debounce_frame (b : button_t) (line : Z) :
  cfg (snd (button_debounce b line)) = cfg b /\
  f_ev_cb (snd (button_debounce b line)) = f_ev_cb b /\
  handler (state (snd (button_debounce b line))) = handler (state b) /\
  counter (state (snd (button_debounce b line))) = counter (state b) /\
  click_cnt (state (snd (button_debounce b line))) = click_cnt (state b).
Proof. repeat split. Qed.

(** A scan of an enabled instance is the debounce filter followed by one
    tick of the state machine on the logical input. *)
Lemma button_scan_fsm (b : button_t) (line : Z) (f : fn_ptr) (h : on_state_handler) :
  f_io_read (cfg b) = Some f -> handler (state b) = Some h ->
  button_scan (Some b) line =
    (let b1 := snd (button_debounce b line) in
     let r := fsm_tick b1 (io_event_of b1 (fst (button_debounce b line))) in
     (fst (fst r), Some (snd (fst r)), snd r)).
Proof.
  intros Hf Hh. unfold button_scan, fsm_tick, io_event_of. rewrite Hf, Hh.
  destruct (button_debounce b line) as [lv b1] eqn:E.
  assert (Hb1 : handler (state b1) = Some h).
  { replace b1 with (snd (button_debounce b line)) by (rewrite E; reflexivity).
    rewrite <- Hh. apply button_debounce_frame. }
  cbn [fst snd]. rewrite Hb1.
  destruct (lv =? level_val (active_lv (cfg b1)));
    destruct (call_handler h b1 _) as [ev b2]; reflexivity.
Qed.

Lemma fsm_tick_event (b : button_t) (h : on_state_handler) (io : BTN_IO_EVENT_E) :
  handler (state b) = Some h ->
  fst (fsm_tick b io) = call_handler h b io.
Proof.
  intros Hh. unfold fsm_tick. rewrite Hh.
  destruct (call_handler h b io) as [ev b2]. reflexivity.
Qed.

(** C6: in DownShort a Pressed input first increments the counter.  If the
    new value has reached up_max_cnt, the tick emits the classification of
    the current click count (1 -> SingleClick, 2 -> DoubleClick, 3 or more
    -> MoreClick), resets the counter to 0 and moves to DownLong; below the
    threshold it emits nothing, keeps the incremented counter and stays in
    DownShort. *)
Theorem on_down_short_pressed (b : button_t) :
  handler (state b) = Some DownShort ->
  0 <= click_cnt (state b) < 2 ^ 32 ->
  let c := to_counter (counter (state b) + 1) in
  (up_max_cnt (cfg b) <= c ->
     on_down_short_handler b BTN_IO_EVENT_DOWN =
       (classify (click_cnt (state b)),
        set_handler (Some DownLong) (set_counter 0 b)) /\
     fst (fsm_tick b BTN_IO_EVENT_DOWN) =
       (classify (click_cnt (state b)),
        set_handler (Some DownLong) (set_counter 0 b))) /\
  (c < up_max_cnt (cfg b) ->
     on_down_short_handler b BTN_IO_EVENT_DOWN = (BTN_EVENT_NONE, set_counter c b) /\
     fsm_tick b BTN_IO_EVENT_DOWN = (BTN_EVENT_NONE, set_counter c b, []) /\
     handler (state (set_counter c b)) = Some DownShort) /\
  classify 1 = BTN_EVENT_SINGLE_CLICK /\
  classify 2 = BTN_EVENT_DOUBLE_CLICK /\
  (forall n, 3 <= n -> classify n = BTN_EVENT_MORE_CLICK).
Proof.
  intros Hh Hcc c.
  assert (Hlow : c < up_max_cnt (cfg b) ->
            on_down_short_handler b BTN_IO_EVENT_DOWN =
              (BTN_EVENT_NONE, set_counter c b)).
  { intros Hc. unfold on_down_short_handler. cbn [counter state set_counter cfg].
    fold c. rewrite Z.geb_leb.
    destruct (Z.leb_spec (up_max_cnt (cfg b)) c); [lia | reflexivity]. }
  assert (Hhigh : up_max_cnt (cfg b) <= c ->
            on_down_short_handler b BTN_IO_EVENT_DOWN =
              (classify (click_cnt (state b)),
               set_handler (Some DownLong) (set_counter 0 b))).
  { intros Hc. unfold on_down_short_handler. cbn [counter state set_counter cfg].
    fold c. rewrite Z.geb_leb.
    destruct (Z.leb_spec (up_max_cnt (cfg b)) c); [| lia].
    cbn [click_cnt state]. rewrite (dispatch_click_type_classify _ Hcc).
    reflexivity. }
  repeat split.
  - apply Hhigh; assumption.
  - rewrite (fsm_tick_event b DownShort _ Hh). apply Hhigh; assumption.
  - apply Hlow; assumption.
  - unfold fsm_tick. rewrite Hh. cbn [call_handler]. rewrite Hlow by assumption.
    reflexivity.
  - exact Hh.
  - intros n Hn. unfold classify.
    destruct (Z.eqb_spec n 0); [lia |].
    destruct (Z.eqb_spec n 1); [lia |].
    destruct (Z.eqb_spec n 2); [lia | reflexivity].
Qed.

(** C8: in each of the states Down, DownShort and DownLong the handler
    answers a Released input with Popup, whatever the counter holds; a scan
    whose debounced level differs from the active level therefore returns
    Popup on that tick and hands it to the callback when there is one. *)
Theorem release_emits_popup (b : button_t) (h : on_state_handler) (f : fn_ptr)
    (line : Z) :
  f_io_read (cfg b) = Some f ->
  handler (state b) = Some h ->
  logically_pressed h = true ->
  fst (button_debounce b line) <> level_val (active_lv (cfg b)) ->
  fst (call_handler h b BTN_IO_EVENT_UP) = BTN_EVENT_POPUP /\
  fst (fst (button_scan (Some b) line)) = BTN_EVENT_POPUP /\
  snd (button_scan (Some b) line) =
    delivered (f_ev_cb b) BTN_EVENT_POPUP (click_cnt (state b)).
Proof.
  intros Hf Hh Hp Hlv.
  rewrite (button_scan_fsm b line f h Hf Hh). cbn [fst snd].
  unfold io_event_of.
  destruct (button_debounce_frame b line) as (Hc & Hcb & Hh1 & _ & Hk).
  rewrite Hc. destruct (Z.eqb_spec (fst (button_debounce b line))
                          (level_val (active_lv (cfg b)))) as [E | _];
    [contradiction |].
  unfold fsm_tick. rewrite Hh1, Hh.
  destruct (snd (button_debounce b line)) as [c1 cb1 [h1 n1 k1 j1]].
  cbn [f_ev_cb state click_cnt] in Hcb, Hk. subst cb1 k1.
  destruct b as [c0 cb0 [h0 n0 k0 j0]].
  destruct h; try discriminate Hp; cbn; destruct cb0; repeat split.
Qed.

(** ** Disabled instances *)

Lemma button_scan_disabled (p_btn : option button_t) (line : Z) :
  disabled p_btn = true ->
  button_scan p_btn line = (BTN_EVENT_NONE, p_btn, []).
Proof.
  destruct p_btn as [b |]; [| reflexivity].
  unfold disabled, button_scan.
  destruct (f_io_read (cfg b)), (handler (state b)); intros H;
    try discriminate H; reflexivity.
Qed.

(** C7: when the instance pointer, the reader or the state handler is null,
    a scan returns None, leaves the instance as it is and calls nothing, and
    so does every scan of a run; the instance built from a null
    configuration is such an instance, whatever the callback and whatever
    the samples. *)
Theorem scan_disabled_is_noop (p_btn : option button_t) (line : Z)
    (lines : list Z) (cb : option fn_ptr) (btn : button_t) :
  disabled p_btn = true ->
  button_scan p_btn line = (BTN_EVENT_NONE, p_btn, []) /\
  scan_run p_btn lines = (repeat BTN_EVENT_NONE (length lines), p_btn, []) /\
  disabled (Some (button_ctor None cb btn)) = true /\
  scan_run (Some (button_ctor None cb btn)) lines =
    (repeat BTN_EVENT_NONE (length lines), Some (button_ctor None cb btn), []).
Proof.
  intros Hd.
  assert (Hrun : forall p, disabled p = true ->
            scan_run p lines = (repeat BTN_EVENT_NONE (length lines), p, [])).
  { intros p Hp. induction lines as [| l rest IH]; [reflexivity |].
    cbn [scan_run length repeat]. rewrite (button_scan_disabled p l Hp), IH.
    reflexivity. }
  assert (Hctor : disabled (Some (button_ctor None cb btn)) = true)
    by reflexivity.
  repeat split.
  - apply button_scan_disabled; assumption.
  - apply Hrun; assumption.
  - apply Hrun; exact Hctor.
Qed.

(** ** Ticks without an event *)

Lemma call_handler_click_cnt (h : on_state_handler) (b : button_t)
    (io : BTN_IO_EVENT_E) :
  handler (state b) = Some h ->
  click_cnt (state (snd (call_handler h b io))) = click_cnt_after b io.
Proof.
  intros Hh. unfold click_cnt_after. rewrite Hh.
  destruct h, io; cbn [call_handler on_idle_handler on_up_handler
    on_up_suspense_handler on_down_handler on_down_short_handler
    on_down_long_handler]; try reflexivity;
  match goal with
  | |- context [if ?c then _ else _] => destruct c; reflexivity
  end.
Qed.

(** C2 (amended): a scan that returns None never calls the callback.  It
    leaves click_cnt as it was when the debounced input is Released or the
    state is Down, DownShort or DownLong; on a Pressed input it writes 1 to
    click_cnt in Idle and Up and increments click_cnt in UpSuspense, and
    these ticks return None as well. *)
Theorem none_tick_effect (b : button_t) (line : Z) :
  fst (fst (button_scan (Some b) line)) = BTN_EVENT_NONE ->
  snd (button_scan (Some b) line) = [] /\
  exists b',
    snd (fst (button_scan (Some b) line)) = Some b' /\
    click_cnt (state b') =
      (if disabled (Some b) then click_cnt (state b)
       else click_cnt_after b (io_event_of b (fst (button_debounce b line)))).
Proof.
  destruct (disabled (Some b)) eqn:Hd.
  - rewrite (button_scan_disabled (Some b) line Hd). intros _.
    split; [reflexivity |]. exists b. split; reflexivity.
  - unfold disabled in Hd.
    destruct (f_io_read (cfg b)) as [f |] eqn:Hf; [| discriminate Hd].
    destruct (handler (state b)) as [h |] eqn:Hh; [| discriminate Hd].
    rewrite (button_scan_fsm b line f h Hf Hh). cbn [fst snd].
    destruct (button_debounce_frame b line) as (Hc & Hcb & Hh1 & _ & Hk).
    rewrite Hh in Hh1.
    assert (Hio : io_event_of (snd (button_debounce b line))
                    (fst (button_debounce b line)) =
                  io_event_of b (fst (button_debounce b line))).
    { unfold io_event_of. rewrite Hc. reflexivity. }
    rewrite Hio.
    set (b1 := snd (button_debounce b line)) in *.
    set (io := io_event_of b (fst (button_debounce b line))).
    assert (Hafter : click_cnt_after b1 io = click_cnt_after b io).
    { unfold click_cnt_after. rewrite Hh1, Hh, Hk. reflexivity. }
    pose proof (call_handler_click_cnt h b1 io Hh1) as Hcc.
    unfold fsm_tick. rewrite Hh1.
    destruct (call_handler h b1 io) as [ev b2]. cbn [fst snd] in *.
    intros ->. cbn [button_event_eqb negb].
    split; [reflexivity |]. exists b2. split; [reflexivity |].
    rewrite Hcc. exact Hafter.
Qed.

(** ** Construction *)

Lemma scan_run_cons (p_btn : option button_t) (l : Z) (rest : list Z) :
  scan_run p_btn (l :: rest) =
    (fst (fst (button_scan p_btn l)) ::
       fst (fst (scan_run (snd (fst (button_scan p_btn l))) rest)),
     snd (fst (scan_run (snd (fst (button_scan p_btn l))) rest)),
     snd (button_scan p_btn l) ++
       snd (scan_run (snd (fst (button_scan p_btn l))) rest)).
Proof.
  cbn [scan_run]. destruct (button_scan p_btn l) as [[ev p1] calls].
  cbn [fst snd]. destruct (scan_run p1 rest) as [[evs p2] calls'].
  reflexivity.
Qed.

Lemma at_rest_scan (c : button_cfg_t) (b : button_t) :
  at_rest c b ->
  exists b', button_scan (Some b) (released_level (active_lv c)) =
               (BTN_EVENT_NONE, Some b', []) /\ at_rest c b'.
Proof.
  intros (Hc & Hh & Ha & Hp).
  destruct b as [c0 cb0 [h0 n0 k0 [a0 p0]]]. cbn in Hc, Hh, Ha, Hp. subst c0 a0 p0.
  destruct c as [f lv u lg]. cbn [active_lv] in *.
  destruct f as [f |].
  - destruct Hh as [-> | ->], lv; eexists; (split; [reflexivity |]);
      unfold at_rest; cbn; auto.
  - exists (mk_button (mk_cfg None lv u lg) cb0
              (mk_state h0 n0 k0
                 (mk_jit (released_level lv) (released_level lv)))).
    split.
    + unfold button_scan. cbn [cfg f_io_read]. reflexivity.
    + unfold at_rest. cbn. auto.
Qed.

Lemma at_rest_run (c : button_cfg_t) (lines : list Z) : forall b : button_t,
  at_rest c b ->
  Forall (fun l => l = released_level (active_lv c)) lines ->
  fst (fst (scan_run (Some b) lines)) = repeat BTN_EVENT_NONE (length lines) /\
  snd (scan_run (Some b) lines) = [].
Proof.
  induction lines as [| l rest IH]; intros b Hb Hl; [split; reflexivity |].
  inversion Hl as [| ? ? Hx Hrest]; subst.
  destruct (at_rest_scan c b Hb) as (b' & Hscan & Hb').
  rewrite scan_run_cons, Hscan. cbn [fst snd app length repeat].
  destruct (IH b' Hb' Hrest) as [Hev Hcalls].
  rewrite Hev, Hcalls. split; reflexivity.
Qed.

(** C9: built from a configuration, an instance has both debounce fields at
    the complement of the active level and its state at Idle; as long as
    every raw sample is at that released level, every scan returns None and
    the callback is not called. *)
Theorem ctor_starts_released (c : button_cfg_t) (cb : option fn_ptr)
    (btn : button_t) (lines : list Z) :
  Forall (fun l => l = released_level (active_lv c)) lines ->
  previous (jit (state (button_ctor (Some c) cb btn))) =
    released_level (active_lv c) /\
  asserted (jit (state (button_ctor (Some c) cb btn))) =
    released_level (active_lv c) /\
  handler (state (button_ctor (Some c) cb btn)) = Some Idle /\
  fst (fst (scan_run (Some (button_ctor (Some c) cb btn)) lines)) =
    repeat BTN_EVENT_NONE (length lines) /\
  snd (scan_run (Some (button_ctor (Some c) cb btn)) lines) = [].
Proof.
  intros Hl.
  assert (Hp : previous (jit (state (button_ctor (Some c) cb btn))) =
               released_level (active_lv c))
    by (destruct c as [f [] u lg]; reflexivity).
  assert (Ha : asserted (jit (state (button_ctor (Some c) cb btn))) =
               released_level (active_lv c))
    by (destruct c as [f [] u lg]; reflexivity).
  repeat split; try assumption.
  all: apply (at_rest_run c lines); try assumption;
    unfold at_rest; repeat split; try assumption; left; reflexivity.
Qed.

(** ** Instances without a callback *)

Lemma call_handler_set_f_ev_cb (h : on_state_handler) (b : button_t)
    (io : BTN_IO_EVENT_E) (cb : option fn_ptr) :
  call_handler h (set_f_ev_cb cb b) io =
    (fst (call_handler h b io), set_f_ev_cb cb (snd (call_handler h b io))).
Proof.
  destruct b as [c0 cb0 [h0 n0 k0 j0]].
  destruct h, io; cbn [call_handler on_idle_handler on_up_handler
    on_up_suspense_handler on_down_handler on_down_short_handler
    on_down_long_handler set_f_ev_cb set_counter set_handler set_click_cnt
    cfg state f_ev_cb counter click_cnt handler jit fst snd];
  try reflexivity;
  match goal with
  | |- context [if ?c then _ else _] => destruct c; reflexivity
  end.
Qed.

Lemma call_handler_f_ev_cb (h : on_state_handler) (b : button_t)
    (io : BTN_IO_EVENT_E) :
  f_ev_cb (snd (call_handler h b io)) = f_ev_cb b.
Proof.
  destruct h, io; cbn [call_handler on_idle_handler on_up_handler
    on_up_suspense_handler on_down_handler on_down_short_handler
    on_down_long_handler]; try reflexivity;
  match goal with
  | |- context [if ?c then _ else _] => destruct c; reflexivity
  end.
Qed.

(** One scan of an instance without a callback, against the same instance
    with the callback [cb]. *)
Lemma button_scan_null_cb (b : button_t) (cb : option fn_ptr) (line : Z) :
  f_ev_cb b = None ->
  exists b',
    snd (fst (button_scan (Some b) line)) = Some b' /\
    f_ev_cb b' = None /\
    snd (button_scan (Some b) line) = [] /\
    fst (fst (button_scan (Some (set_f_ev_cb cb b)) line)) =
      fst (fst (button_scan (Some b) line)) /\
    snd (fst (button_scan (Some (set_f_ev_cb cb b)) line)) =
      Some (set_f_ev_cb cb b').
Proof.
  intros Hcb.
  destruct (disabled (Some b)) eqn:Hd.
  - assert (Hd' : disabled (Some (set_f_ev_cb cb b)) = true) by exact Hd.
    rewrite (button_scan_disabled _ line Hd), (button_scan_disabled _ line Hd').
    exists b. repeat split. exact Hcb.
  - unfold disabled in Hd.
    destruct (f_io_read (cfg b)) as [f |] eqn:Hf; [| discriminate Hd].
    destruct (handler (state b)) as [h |] eqn:Hh; [| discriminate Hd].
    rewrite (button_scan_fsm b line f h Hf Hh).
    rewrite (button_scan_fsm (set_f_ev_cb cb b) line f h Hf Hh).
    change (button_debounce (set_f_ev_cb cb b) line)
      with (fst (button_debounce b line),
            set_f_ev_cb cb (snd (button_debounce b line))).
    cbn [fst snd].
    destruct (button_debounce_frame b line) as (_ & Hcb1 & Hh1 & _).
    rewrite Hcb in Hcb1. rewrite Hh in Hh1.
    set (b1 := snd (button_debounce b line)) in *.
    change (io_event_of (set_f_ev_cb cb b1)) with (io_event_of b1).
    set (io := io_event_of b1 (fst (button_debounce b line))).
    unfold fsm_tick. cbn [set_f_ev_cb state]. rewrite Hh1.
    change (mk_button (cfg b1) cb (state b1)) with (set_f_ev_cb cb b1).
    rewrite call_handler_set_f_ev_cb.
    pose proof (call_handler_f_ev_cb h b1 io) as Hk. rewrite Hcb1 in Hk.
    destruct (call_handler h b1 io) as [ev b2]. cbn [fst snd] in *.
    exists b2. rewrite Hk. repeat split.
    destruct (negb _); reflexivity.
Qed.

Lemma scan_run_null_cb (cb : option fn_ptr) (lines : list Z) :
  forall b : button_t,
  f_ev_cb b = None ->
  fst (fst (scan_run (Some (set_f_ev_cb cb b)) lines)) =
    fst (fst (scan_run (Some b) lines)) /\
  snd (scan_run (Some b) lines) = [] /\
  exists b',
    snd (fst (scan_run (Some b) lines)) = Some b' /\
    f_ev_cb b' = None /\
    snd (fst (scan_run (Some (set_f_ev_cb cb b)) lines)) =
      Some (set_f_ev_cb cb b').
Proof.
  induction lines as [| l rest IH]; intros b Hcb.
  - cbn [scan_run fst snd]. repeat split. exists b. repeat split. exact Hcb.
  - destruct (button_scan_null_cb b cb l Hcb) as (b1 & Hp & Hcb1 & Hcalls & Hev & Hp').
    rewrite !scan_run_cons. cbn [fst snd]. rewrite Hp, Hp', Hcalls, Hev.
    destruct (IH b1 Hcb1) as (Hevs & Hcs & b2 & Hq & Hcb2 & Hq').
    rewrite Hevs, Hcs. repeat split. exists b2. repeat split; assumption.
Qed.

(** C10: an instance built from a configuration and a null callback runs
    like the one built with a callback.  Over any run of samples it returns
    the same event kinds and goes through the same states; each scan of an
    enabled instance is the debounce filter followed by the handler of the
    current state, whose event kind is returned; and nothing is ever handed
    to the null callback. *)
Theorem null_callback_enabled (c : button_cfg_t) (btn : button_t)
    (cb : option fn_ptr) (lines : list Z) (line : Z) :
  fst (fst (scan_run (Some (button_ctor (Some c) None btn)) lines)) =
    fst (fst (scan_run (Some (button_ctor (Some c) cb btn)) lines)) /\
  snd (scan_run (Some (button_ctor (Some c) None btn)) lines) = [] /\
  disabled (Some (button_ctor (Some c) None btn)) =
    match f_io_read c with Some _ => false | None => true end /\
  exists b,
    snd (fst (scan_run (Some (button_ctor (Some c) None btn)) lines)) = Some b /\
    snd (fst (scan_run (Some (button_ctor (Some c) cb btn)) lines)) =
      Some (set_f_ev_cb cb b) /\
    snd (button_scan (Some b) line) = [] /\
    forall h, handler (state b) = Some h -> disabled (Some b) = false ->
      fst (button_scan (Some b) line) =
        (fst (call_handler h (snd (button_debounce b line))
                (io_event_of b (fst (button_debounce b line)))),
         Some (snd (call_handler h (snd (button_debounce b line))
                (io_event_of b (fst (button_debounce b line)))))).
Proof.
  assert (Hcb : f_ev_cb (button_ctor (Some c) None btn) = None) by reflexivity.
  destruct (scan_run_null_cb cb lines _ Hcb) as (Hevs & Hcs & b & Hq & Hcb' & Hq').
  change (set_f_ev_cb cb (button_ctor (Some c) None btn))
    with (button_ctor (Some c) cb btn) in *.
  split; [symmetry; exact Hevs |]. split; [exact Hcs |].
  split; [reflexivity |].
  exists b. split; [exact Hq |]. split; [exact Hq' |].
  split.
  - destruct (button_scan_null_cb b cb line Hcb') as (b1 & _ & _ & Hc & _).
    exact Hc.
  - intros h Hh Hd. unfold disabled in Hd.
    destruct (f_io_read (cfg b)) as [f |] eqn:Hf; [| discriminate Hd].
    rewrite (button_scan_fsm b line f h Hf Hh). cbn [fst snd].
    destruct (button_debounce_frame b line) as (Hc & _ & Hh1 & _).
    rewrite Hh in Hh1.
    rewrite (fsm_tick_event _ h _ Hh1).
    unfold io_event_of. rewrite Hc.
    destruct (call_handler h _ _); reflexivity.
Qed.

(** ** Runs of the state machine *)

Lemma fsm_run_app (b : button_t) (l1 l2 : list BTN_IO_EVENT_E) :
  fsm_run b (l1 ++ l2) =
    (fst (fst (fsm_run b l1)) ++
       fst (fst (fsm_run (snd (fst (fsm_run b l1))) l2)),
     snd (fst (fsm_run (snd (fst (fsm_run b l1))) l2)),
     snd (fsm_run b l1) ++ snd (fsm_run (snd (fst (fsm_run b l1))) l2)).
Proof.
  revert b. induction l1 as [| io l1 IH]; intros b; cbn [fsm_run app fst snd].
  - destruct (fsm_run b l2) as [[evs b2] calls]. reflexivity.
  - destruct (fsm_tick b io) as [[ev b1] calls]. rewrite IH.
    destruct (fsm_run b1 l1) as [[evs1 b2] calls1]. cbn [fst snd].
    destruct (fsm_run b2 l2) as [[evs2 b3] calls2]. cbn [fst snd].
    rewrite app_assoc. reflexivity.
Qed.

Lemma fsm_run_cons (b : button_t) (io : BTN_IO_EVENT_E)
    (rest : list BTN_IO_EVENT_E) :
  fsm_run b (io :: rest) =
    (fst (fst (fsm_tick b io)) ::
       fst (fst (fsm_run (snd (fst (fsm_tick b io))) rest)),
     snd (fst (fsm_run (snd (fst (fsm_tick b io))) rest)),
     snd (fsm_tick b io) ++ snd (fsm_run (snd (fst (fsm_tick b io))) rest)).
Proof.
  cbn [fsm_run]. destruct (fsm_tick b io) as [[ev b1] calls]. cbn [fst snd].
  destruct (fsm_run b1 rest) as [[evs b2] calls']. reflexivity.
Qed.

Lemma idle_tick_pressed (b : button_t) :
  handler (state b) = Some Idle ->
  fsm_tick b BTN_IO_EVENT_DOWN = (BTN_EVENT_NONE, in_state Down 0 1 b, []).
Proof. intros Hh. unfold fsm_tick. rewrite Hh. reflexivity. Qed.

Lemma down_tick_below (b : button_t) (n k : Z) :
  to_counter (n + 1) < long_min_cnt (cfg b) ->
  fsm_tick (in_state Down n k b) BTN_IO_EVENT_DOWN =
    (BTN_EVENT_NONE, in_state Down (to_counter (n + 1)) k b, []).
Proof. intros H. fsm_tick_unfold. decide_geb. reflexivity. Qed.

Lemma down_tick_reach (b : button_t) (n k : Z) :
  long_min_cnt (cfg b) <= to_counter (n + 1) ->
  fsm_tick (in_state Down n k b) BTN_IO_EVENT_DOWN =
    (BTN_EVENT_LONG_CLICK, in_state DownLong 0 k b,
     delivered (f_ev_cb b) BTN_EVENT_LONG_CLICK k).
Proof. intros H. fsm_tick_unfold. decide_geb. reflexivity. Qed.

Lemma down_tick_released (b : button_t) (n k : Z) :
  fsm_tick (in_state Down n k b) BTN_IO_EVENT_UP =
    (BTN_EVENT_POPUP, in_state UpSuspense 0 k b,
     delivered (f_ev_cb b) BTN_EVENT_POPUP k).
Proof. reflexivity. Qed.

Lemma down_long_tick_released (b : button_t) (n k : Z) :
  fsm_tick (in_state DownLong n k b) BTN_IO_EVENT_UP =
    (BTN_EVENT_POPUP, in_state Up n k b,
     delivered (f_ev_cb b) BTN_EVENT_POPUP k).
Proof. reflexivity. Qed.

Lemma up_suspense_tick_below (b : button_t) (n k : Z) :
  to_counter (n + 1) < up_max_cnt (cfg b) ->
  fsm_tick (in_state UpSuspense n k b) BTN_IO_EVENT_UP =
    (BTN_EVENT_NONE, in_state UpSuspense (to_counter (n + 1)) k b, []).
Proof. intros H. fsm_tick_unfold. decide_geb. reflexivity. Qed.

Lemma up_suspense_tick_reach (b : button_t) (n : Z) :
  up_max_cnt (cfg b) <= to_counter (n + 1) ->
  fsm_tick (in_state UpSuspense n 1 b) BTN_IO_EVENT_UP =
    (BTN_EVENT_SINGLE_CLICK, in_state Up 0 1 b,
     delivered (f_ev_cb b) BTN_EVENT_SINGLE_CLICK 1).
Proof. intros H. fsm_tick_unfold. decide_geb. reflexivity. Qed.

(** Held in DownLong, and released in Up, nothing happens. *)
Lemma down_long_hold (b : button_t) (n k : Z) (m : nat) :
  fsm_run (in_state DownLong n k b) (repeat BTN_IO_EVENT_DOWN m) =
    (repeat BTN_EVENT_NONE m, in_state DownLong n k b, []).
Proof.
  induction m as [| m IH]; [reflexivity |].
  cbn [repeat]. rewrite fsm_run_cons.
  change (fsm_tick (in_state DownLong n k b) BTN_IO_EVENT_DOWN)
    with (BTN_EVENT_NONE, in_state DownLong n k b, @nil button_ev_t).
  cbn [fst snd]. rewrite IH. reflexivity.
Qed.

Lemma up_rest (b : button_t) (n k : Z) (m : nat) :
  fsm_run (in_state Up n k b) (repeat BTN_IO_EVENT_UP m) =
    (repeat BTN_EVENT_NONE m, in_state Up n k b, []).
Proof.
  induction m as [| m IH]; [reflexivity |].
  cbn [repeat]. rewrite fsm_run_cons.
  change (fsm_tick (in_state Up n k b) BTN_IO_EVENT_UP)
    with (BTN_EVENT_NONE, in_state Up n k b, @nil button_ev_t).
  cbn [fst snd]. rewrite IH. reflexivity.
Qed.

(** Counting below the threshold, in Down and in UpSuspense. *)
Lemma down_hold (b : button_t) (k : Z) (m : nat) : forall n : Z,
  0 <= n ->
  m = 0%nat \/ n + Z.of_nat m < long_min_cnt (cfg b) ->
  exists n',
    fsm_run (in_state Down n k b) (repeat BTN_IO_EVENT_DOWN m) =
      (repeat BTN_EVENT_NONE m, in_state Down n' k b, []) /\
    0 <= n' <= n + Z.of_nat m /\
    (n + Z.of_nat m < 2 ^ counter_bits -> n' = n + Z.of_nat m).
Proof.
  induction m as [| m IH]; intros n Hn Hm.
  - exists n. cbn [repeat fsm_run]. repeat split; lia.
  - destruct Hm as [Hm | Hm]; [discriminate Hm |].
    pose proof (wrap_bounds counter_bits (n + 1) ltac:(lia)) as Hw.
    fold (to_counter (n + 1)) in Hw.
    destruct (IH (to_counter (n + 1)) ltac:(lia) ltac:(right; lia))
      as (n' & Hrun & Hb & Hex).
    exists n'. cbn [repeat]. rewrite fsm_run_cons.
    rewrite down_tick_below by lia. cbn [fst snd]. rewrite Hrun.
    split; [reflexivity |]. split; [lia |].
    intros Hr. unfold to_counter in Hex.
    rewrite (wrap_small counter_bits (n + 1)) in Hex by lia. lia.
Qed.

Lemma up_suspense_hold (b : button_t) (k : Z) (m : nat) : forall n : Z,
  0 <= n ->
  m = 0%nat \/ n + Z.of_nat m < up_max_cnt (cfg b) ->
  exists n',
    fsm_run (in_state UpSuspense n k b) (repeat BTN_IO_EVENT_UP m) =
      (repeat BTN_EVENT_NONE m, in_state UpSuspense n' k b, []) /\
    0 <= n' <= n + Z.of_nat m /\
    (n + Z.of_nat m < 2 ^ counter_bits -> n' = n + Z.of_nat m).
Proof.
  induction m as [| m IH]; intros n Hn Hm.
  - exists n. cbn [repeat fsm_run]. repeat split; lia.
  - destruct Hm as [Hm | Hm]; [discriminate Hm |].
    pose proof (wrap_bounds counter_bits (n + 1) ltac:(lia)) as Hw.
    fold (to_counter (n + 1)) in Hw.
    destruct (IH (to_counter (n + 1)) ltac:(lia) ltac:(right; lia))
      as (n' & Hrun & Hb & Hex).
    exists n'. cbn [repeat]. rewrite fsm_run_cons.
    rewrite up_suspense_tick_below by lia. cbn [fst snd]. rewrite Hrun.
    split; [reflexivity |]. split; [lia |].
    intros Hr. unfold to_counter in Hex.
    rewrite (wrap_small counter_bits (n + 1)) in Hex by lia. lia.
Qed.

Lemma ticks_to_reach_pos (t : Z) :
  (1 <= ticks_to_reach t)%nat /\ Z.of_nat (ticks_to_reach t) = Z.max 1 t.
Proof. unfold ticks_to_reach. lia. Qed.

Lemma repeat_snoc {A : Type} (x : A) (n : nat) :
  repeat x (S n) = repeat x n ++ [x].
Proof. cbn [repeat]. apply repeat_cons. Qed.

(** From Down with a counter of 0, the press reaches the long threshold on
    counted tick [ticks_to_reach long_min_cnt] and not before. *)
Lemma down_until_long (b : button_t) (k : Z) :
  long_min_cnt (cfg b) < 2 ^ counter_bits ->
  fsm_run (in_state Down 0 k b)
      (repeat BTN_IO_EVENT_DOWN (ticks_to_reach (long_min_cnt (cfg b)))) =
    (repeat BTN_EVENT_NONE (ticks_to_reach (long_min_cnt (cfg b)) - 1) ++
       [BTN_EVENT_LONG_CLICK],
     in_state DownLong 0 k b,
     delivered (f_ev_cb b) BTN_EVENT_LONG_CLICK k).
Proof.
  intros Hr.
  destruct (ticks_to_reach_pos (long_min_cnt (cfg b))) as [Hpos Hval].
  destruct (ticks_to_reach (long_min_cnt (cfg b))) as [| g]; [lia |].
  replace (S g - 1)%nat with g by lia.
  rewrite repeat_snoc, fsm_run_app.
  destruct (down_hold b k g 0 ltac:(lia) ltac:(lia)) as (n' & Hrun & Hb & Hex).
  rewrite Hrun. cbn [fst snd].
  assert (Hn' : n' = Z.of_nat g) by lia. subst n'.
  cbn [fsm_run].
  assert (Hreach : long_min_cnt (cfg b) <= to_counter (Z.of_nat g + 1)).
  { destruct (Z.le_gt_cases (long_min_cnt (cfg b)) 0) as [H0 | H0].
    - pose proof (wrap_bounds counter_bits (Z.of_nat g + 1) ltac:(lia)) as Hw.
      unfold to_counter. lia.
    - unfold to_counter. rewrite wrap_small; lia. }
  rewrite (down_tick_reach b (Z.of_nat g) k Hreach).
  cbn [fst snd app]. rewrite app_nil_r. reflexivity.
Qed.

(** From UpSuspense with a counter of 0 and one click, the click window
    closes on counted tick [ticks_to_reach up_max_cnt] and not before. *)
Lemma up_suspense_until_single (b : button_t) :
  up_max_cnt (cfg b) < 2 ^ counter_bits ->
  fsm_run (in_state UpSuspense 0 1 b)
      (repeat BTN_IO_EVENT_UP (ticks_to_reach (up_max_cnt (cfg b)))) =
    (repeat BTN_EVENT_NONE (ticks_to_reach (up_max_cnt (cfg b)) - 1) ++
       [BTN_EVENT_SINGLE_CLICK],
     in_state Up 0 1 b,
     delivered (f_ev_cb b) BTN_EVENT_SINGLE_CLICK 1).
Proof.
  intros Hr.
  destruct (ticks_to_reach_pos (up_max_cnt (cfg b))) as [Hpos Hval].
  destruct (ticks_to_reach (up_max_cnt (cfg b))) as [| g]; [lia |].
  replace (S g - 1)%nat with g by lia.
  rewrite repeat_snoc, fsm_run_app.
  destruct (up_suspense_hold b 1 g 0 ltac:(lia) ltac:(lia)) as (n' & Hrun & Hb & Hex).
  rewrite Hrun. cbn [fst snd].
  assert (Hn' : n' = Z.of_nat g) by lia. subst n'.
  cbn [fsm_run].
  assert (Hreach : up_max_cnt (cfg b) <= to_counter (Z.of_nat g + 1)).
  { destruct (Z.le_gt_cases (up_max_cnt (cfg b)) 0) as [H0 | H0].
    - pose proof (wrap_bounds counter_bits (Z.of_nat g + 1) ltac:(lia)) as Hw.
      unfold to_counter. lia.
    - unfold to_counter. rewrite wrap_small; lia. }
  rewrite (up_suspense_tick_reach b (Z.of_nat g) Hreach).
  cbn [fst snd app]. rewrite app_nil_r. reflexivity.
Qed.

(** A press from Idle that stays below the long threshold: every tick
    returns None and the machine is in Down with one click. *)
Lemma idle_press_short (b : button_t) (n : nat) :
  handler (state b) = Some Idle ->
  (1 <= n)%nat ->
  Z.of_nat n <= long_min_cnt (cfg b) ->
  exists n',
    fsm_run b (repeat BTN_IO_EVENT_DOWN n) =
      (repeat BTN_EVENT_NONE n, in_state Down n' 1 b, []).
Proof.
  intros Hh Hn Hl. destruct n as [| g]; [lia |].
  cbn [repeat]. rewrite fsm_run_cons, (idle_tick_pressed b Hh). cbn [fst snd].
  destruct (down_hold b 1 g 0 ltac:(lia) ltac:(lia)) as (n' & Hrun & _).
  exists n'. rewrite Hrun. reflexivity.
Qed.

(** C3 (amended): from the initial state the tick that first sees the press
    only enters Down with a counter of 0, so a press of exactly long_min_cnt
    ticks returns None on every tick.  LongClick is returned exactly once,
    on the tick at which the counter reaches the threshold: pressed tick
    number long_min_cnt + 1 (number 2 when long_min_cnt is 0).  Holding
    longer returns None, the release returns Popup, the released ticks after
    it return None, and no SingleClick, DoubleClick or MoreClick is
    returned. *)
Theorem long_click_run (c : button_cfg_t) (cb : option fn_ptr)
    (btn : button_t) (k j : nat) :
  long_min_cnt c < 2 ^ counter_bits ->
  fsm_run (button_ctor (Some c) cb btn)
      (repeat BTN_IO_EVENT_DOWN (1 + ticks_to_reach (long_min_cnt c) + k) ++
       repeat BTN_IO_EVENT_UP (1 + j)) =
    (repeat BTN_EVENT_NONE (ticks_to_reach (long_min_cnt c)) ++
       [BTN_EVENT_LONG_CLICK] ++ repeat BTN_EVENT_NONE k ++
       [BTN_EVENT_POPUP] ++ repeat BTN_EVENT_NONE j,
     in_state Up 0 1 (button_ctor (Some c) cb btn),
     delivered cb BTN_EVENT_LONG_CLICK 1 ++ delivered cb BTN_EVENT_POPUP 1) /\
  fst (fst (fsm_run (button_ctor (Some c) cb btn)
              (repeat BTN_IO_EVENT_DOWN (Z.to_nat (long_min_cnt c))))) =
    repeat BTN_EVENT_NONE (Z.to_nat (long_min_cnt c)).
Proof.
  intros Hr. set (b0 := button_ctor (Some c) cb btn).
  assert (Hh : handler (state b0) = Some Idle) by reflexivity.
  assert (Hc : cfg b0 = c) by reflexivity.
  assert (Hcb : f_ev_cb b0 = cb) by reflexivity.
  split.
  - destruct (ticks_to_reach_pos (long_min_cnt c)) as [Hpos _].
    set (h := ticks_to_reach (long_min_cnt c)) in *.
    replace (1 + h + k)%nat with (S (h + k)) by lia.
    cbn [repeat Nat.add app]. rewrite fsm_run_cons, (idle_tick_pressed b0 Hh).
    cbn [fst snd app]. rewrite repeat_app, <- app_assoc.
    assert (Hlong : fsm_run (in_state Down 0 1 b0) (repeat BTN_IO_EVENT_DOWN h) =
              (repeat BTN_EVENT_NONE (h - 1) ++ [BTN_EVENT_LONG_CLICK],
               in_state DownLong 0 1 b0,
               delivered cb BTN_EVENT_LONG_CLICK 1))
      by exact (down_until_long b0 1 Hr).
    rewrite fsm_run_app, Hlong. cbn [fst snd].
    rewrite fsm_run_app, down_long_hold. cbn [fst snd].
    rewrite fsm_run_cons, down_long_tick_released. cbn [fst snd].
    change (in_state Up 0 1 (in_state DownLong 0 1 (in_state Down 0 1 b0)))
      with (in_state Up 0 1 b0).
    rewrite up_rest. cbn [fst snd app]. rewrite app_nil_r, Hcb.
    do 2 f_equal. clear Hlong.
    destruct h as [| g]; [lia |].
    replace (S g - 1)%nat with g by lia. cbn [repeat app].
    rewrite <- app_assoc. reflexivity.
  - destruct (Z.to_nat (long_min_cnt c)) as [| g] eqn:E; [reflexivity |].
    destruct (idle_press_short b0 (S g) Hh ltac:(lia) ltac:(rewrite Hc; lia))
      as (n' & Hrun).
    rewrite Hrun. reflexivity.
Qed.

(** C5 (amended): from the initial state, a press of at least 1 and fewer
    than long_min_cnt ticks followed by a release of more than up_max_cnt
    ticks (and at least 2 ticks) returns Popup on the first released tick
    and SingleClick on released tick number up_max_cnt + 1 (number 2 when
    up_max_cnt is 0), both with a click count of 1, and None on every other
    tick. *)
Theorem single_click_run (c : button_cfg_t) (cb : option fn_ptr)
    (btn : button_t) (n m : nat) :
  up_max_cnt c < 2 ^ counter_bits ->
  (1 <= n)%nat ->
  Z.of_nat n < long_min_cnt c ->
  (ticks_to_reach (up_max_cnt c) + 1 <= m)%nat ->
  fsm_run (button_ctor (Some c) cb btn)
      (repeat BTN_IO_EVENT_DOWN n ++ repeat BTN_IO_EVENT_UP m) =
    (repeat BTN_EVENT_NONE n ++ [BTN_EVENT_POPUP] ++
       repeat BTN_EVENT_NONE (ticks_to_reach (up_max_cnt c) - 1) ++
       [BTN_EVENT_SINGLE_CLICK] ++
       repeat BTN_EVENT_NONE (m - ticks_to_reach (up_max_cnt c) - 1),
     in_state Up 0 1 (button_ctor (Some c) cb btn),
     delivered cb BTN_EVENT_POPUP 1 ++ delivered cb BTN_EVENT_SINGLE_CLICK 1).
Proof.
  intros Hr Hn Hl Hm. set (b0 := button_ctor (Some c) cb btn).
  assert (Hh : handler (state b0) = Some Idle) by reflexivity.
  assert (Hc : cfg b0 = c) by reflexivity.
  assert (Hcb : f_ev_cb b0 = cb) by reflexivity.
  set (w := ticks_to_reach (up_max_cnt c)) in *.
  set (j := (m - w - 1)%nat).
  replace m with (S (w + j)) by lia.
  destruct (idle_press_short b0 n Hh Hn ltac:(rewrite Hc; lia)) as (n' & Hrun).
  rewrite fsm_run_app, Hrun. cbn [fst snd repeat app].
  rewrite fsm_run_cons, down_tick_released. cbn [fst snd].
  rewrite repeat_app, fsm_run_app.
  change (in_state UpSuspense 0 1 (in_state Down n' 1 b0))
    with (in_state UpSuspense 0 1 b0).
  assert (Hwin : fsm_run (in_state UpSuspense 0 1 b0) (repeat BTN_IO_EVENT_UP w) =
            (repeat BTN_EVENT_NONE (w - 1) ++ [BTN_EVENT_SINGLE_CLICK],
             in_state Up 0 1 b0,
             delivered cb BTN_EVENT_SINGLE_CLICK 1))
    by exact (up_suspense_until_single b0 Hr).
  rewrite Hwin. cbn [fst snd].
  change (in_state Up 0 1 (in_state UpSuspense 0 1 b0))
    with (in_state Up 0 1 b0).
  rewrite up_rest. cbn [fst snd app]. rewrite app_nil_r.
  rewrite <- app_assoc. reflexivity.
Qed.

(** ** Scans as filter plus machine *)

Lemma fsm_tick_same_machine (b b' : button_t) (io : BTN_IO_EVENT_E) :
  same_machine b b' ->
  fst (fst (fsm_tick b io)) = fst (fst (fsm_tick b' io)) /\
  snd (fsm_tick b io) = snd (fsm_tick b' io) /\
  same_machine (snd (fst (fsm_tick b io))) (snd (fst (fsm_tick b' io))).
Proof.
  intros (Hc & Hcb & Hh & Hn & Hk).
  destruct b as [c0 cb0 [h0 n0 k0 j0]], b' as [c1 cb1 [h1 n1 k1 j1]].
  cbn in Hc, Hcb, Hh, Hn, Hk. subst c1 cb1 h1 n1 k1.
  unfold fsm_tick, same_machine. cbn [handler state].
  destruct h0 as [h |]; [| cbn; repeat split].
  destruct h, io; cbn [call_handler on_idle_handler on_up_handler
    on_up_suspense_handler on_down_handler on_down_short_handler
    on_down_long_handler set_counter set_handler set_click_cnt
    cfg f_ev_cb state counter click_cnt handler jit];
  try (cbn; repeat split);
  match goal with
  | |- context [if ?x >=? ?y then _ else _] => destruct (x >=? y)
  end; cbn; repeat split.
Qed.

Lemma fsm_tick_keeps_enabled (b : button_t) (io : BTN_IO_EVENT_E) :
  handler (state b) <> None ->
  handler (state (snd (fst (fsm_tick b io)))) <> None /\
  cfg (snd (fst (fsm_tick b io))) = cfg b /\
  jit (state (snd (fst (fsm_tick b io)))) = jit (state b).
Proof.
  intros Hh. destruct b as [c0 cb0 [h0 n0 k0 j0]]. cbn [handler state] in Hh.
  unfold fsm_tick. cbn [handler state].
  destruct h0 as [h |]; [| contradiction].
  destruct h, io; cbn [call_handler on_idle_handler on_up_handler
    on_up_suspense_handler on_down_handler on_down_short_handler
    on_down_long_handler set_counter set_handler set_click_cnt
    cfg f_ev_cb state counter click_cnt handler jit];
  try (cbn; repeat split; discriminate);
  match goal with
  | |- context [if ?x >=? ?y then _ else _] => destruct (x >=? y)
  end; cbn; repeat split; discriminate.
Qed.

Lemma button_debounce_jit_only (b d : button_t) (line : Z) :
  jit (state b) = jit (state d) ->
  fst (button_debounce b line) = fst (button_debounce d line) /\
  jit (state (snd (button_debounce b line))) =
    jit (state (snd (button_debounce d line))).
Proof. intros Hj. unfold button_debounce. rewrite Hj. split; reflexivity. Qed.

Lemma button_debounce_same_machine (b : button_t) (line : Z) :
  same_machine (snd (button_debounce b line)) b.
Proof. unfold same_machine. repeat split. Qed.

Lemma same_machine_trans (a b c : button_t) :
  same_machine a b -> same_machine b c -> same_machine a c.
Proof.
  unfold same_machine. intros (? & ? & ? & ? & ?) (? & ? & ? & ? & ?).
  repeat split; congruence.
Qed.

Lemma scan_run_fsm_run_gen (lines : list Z) : forall (b d b' : button_t),
  f_io_read (cfg b) <> None ->
  handler (state b) <> None ->
  jit (state b) = jit (state d) ->
  same_machine b b' ->
  fst (fst (scan_run (Some b) lines)) =
    fst (fst (fsm_run b' (map (io_event_of b) (fst (debounce_run d lines))))) /\
  snd (scan_run (Some b) lines) =
    snd (fsm_run b' (map (io_event_of b) (fst (debounce_run d lines)))).
Proof.
  induction lines as [| l rest IH]; intros b d b' Hf Hh Hj Hm.
  - split; reflexivity.
  - destruct (f_io_read (cfg b)) as [f |] eqn:Ef; [| contradiction].
    destruct (handler (state b)) as [h |] eqn:Eh; [| contradiction].
    rewrite scan_run_cons, (button_scan_fsm b l f h Ef Eh). cbn [fst snd].
    destruct (button_debounce_jit_only b d l Hj) as [Hlv Hj1].
    destruct (button_debounce_frame b l) as (Hc1 & _ & Hh1 & _).
    cbn [debounce_run].
    destruct (button_debounce d l) as [lv d1] eqn:Ed. cbn [fst snd] in Hlv, Hj1.
    destruct (debounce_run d1 rest) as [lvs d2] eqn:Er.
    cbn [fst map]. rewrite fsm_run_cons. cbn [fst snd].
    set (b1 := snd (button_debounce b l)) in *.
    assert (Hio : io_event_of b1 (fst (button_debounce b l)) = io_event_of b lv).
    { unfold io_event_of. rewrite Hc1, Hlv. reflexivity. }
    rewrite Hio.
    assert (Hm1 : same_machine b1 b').
    { apply (same_machine_trans b1 b b'); [| exact Hm].
      apply button_debounce_same_machine. }
    destruct (fsm_tick_same_machine b1 b' (io_event_of b lv) Hm1)
      as (Hev & Hcalls & Hm2).
    assert (Hh1' : handler (state b1) <> None) by (rewrite Hh1, Eh; discriminate).
    destruct (fsm_tick_keeps_enabled b1 (io_event_of b lv) Hh1')
      as (Hh2 & Hc2 & Hj2).
    set (b2 := snd (fst (fsm_tick b1 (io_event_of b lv)))) in *.
    assert (Hf2 : f_io_read (cfg b2) <> None)
      by (rewrite Hc2, Hc1, Ef; discriminate).
    destruct (IH b2 d1 (snd (fst (fsm_tick b' (io_event_of b lv))))
                Hf2 Hh2 ltac:(rewrite Hj2; exact Hj1) Hm2) as [IHev IHcalls].
    rewrite Er in IHev, IHcalls. cbn [fst] in IHev, IHcalls.
    assert (Hiof : io_event_of b2 = io_event_of b).
    { unfold io_event_of. rewrite Hc2, Hc1. reflexivity. }
    rewrite Hiof in IHev, IHcalls.
    rewrite Hev, Hcalls, IHev, IHcalls. split; reflexivity.
Qed.

(** X18: filter and machine are independent.  The events a run of scans of
    an enabled instance returns, and the payloads it hands to the callback,
    are those of the state machine run on the logical inputs obtained by
    running the debounce filter alone over the samples: the machine never
    influences the filter and sees the samples only through it. *)
Lemma scan_run_fsm_run (b : button_t) (lines : list Z) :
  f_io_read (cfg b) <> None ->
  handler (state b) <> None ->
  fst (fst (scan_run (Some b) lines)) =
    fst (fst (fsm_run b (map (io_event_of b) (fst (debounce_run b lines))))) /\
  snd (scan_run (Some b) lines) =
    snd (fsm_run b (map (io_event_of b) (fst (debounce_run b lines)))).
Proof.
  intros Hf Hh. apply scan_run_fsm_run_gen; try assumption; try reflexivity.
  unfold same_machine. repeat split.
Qed.

(** ** What a scan never touches, and what it hands to the callback *)

Lemma call_handler_frame (h : on_state_handler) (b : button_t)
    (io : BTN_IO_EVENT_E) :
  handler (state b) = Some h ->
  cfg (snd (call_handler h b io)) = cfg b /\
  f_ev_cb (snd (call_handler h b io)) = f_ev_cb b /\
  jit (state (snd (call_handler h b io))) = jit (state b) /\
  handler (state (snd (call_handler h b io))) <> None.
Proof.
  intros Hh.
  destruct h, io; cbn [call_handler on_idle_handler on_up_handler
    on_up_suspense_handler on_down_handler on_down_short_handler
    on_down_long_handler];
  try (cbn; rewrite ?Hh; repeat split; discriminate);
  match goal with
  | |- context [if ?x >=? ?y then _ else _] => destruct (x >=? y)
  end; cbn; rewrite ?Hh; repeat split; discriminate.
Qed.

(** One scan of a present instance: the instance stays present, its
    configuration, callback and guard are untouched, and the callback
    receives the returned event with the click count, or nothing. *)
Lemma button_scan_frame (b : button_t) (line : Z) :
  exists b',
    snd (fst (button_scan (Some b) line)) = Some b' /\
    cfg b' = cfg b /\
    f_ev_cb b' = f_ev_cb b /\
    disabled (Some b') = disabled (Some b) /\
    snd (button_scan (Some b) line) =
      (if button_event_eqb (fst (fst (button_scan (Some b) line))) BTN_EVENT_NONE
       then []
       else delivered (f_ev_cb b) (fst (fst (button_scan (Some b) line)))
              (click_cnt (state b'))).
Proof.
  destruct (disabled (Some b)) eqn:Hd.
  - rewrite (button_scan_disabled (Some b) line Hd). exists b.
    repeat split. exact Hd.
  - pose proof Hd as Hd0. unfold disabled in Hd.
    destruct (f_io_read (cfg b)) as [f |] eqn:Hf; [| discriminate Hd].
    destruct (handler (state b)) as [h |] eqn:Hh; [| discriminate Hd].
    rewrite (button_scan_fsm b line f h Hf Hh). cbn [fst snd].
    destruct (button_debounce_frame b line) as (Hc1 & Hcb1 & Hh1 & _).
    rewrite Hh in Hh1.
    set (b1 := snd (button_debounce b line)) in *.
    set (io := io_event_of b1 (fst (button_debounce b line))).
    destruct (call_handler_frame h b1 io Hh1) as (Hc2 & Hcb2 & _ & Hh2).
    unfold fsm_tick. rewrite Hh1.
    destruct (call_handler h b1 io) as [ev b2]. cbn [fst snd] in *.
    exists b2. split; [reflexivity |].
    split; [congruence |]. split; [congruence |]. split.
    + unfold disabled. rewrite Hc2, Hc1, Hf.
      destruct (handler (state b2)); [reflexivity | contradiction].
    + rewrite Hcb2, Hcb1. unfold delivered.
      destruct (button_event_eqb ev BTN_EVENT_NONE); reflexivity.
Qed.

(** X1: over any run of scans the instance keeps its configuration and its
    callback, and it stays enabled if it was enabled and disabled if it was
    disabled: no scan writes the reader, the thresholds, the active level or
    the callback, and no handler stores a null state. *)
Theorem scan_run_keeps_configuration (b : button_t) (lines : list Z) :
  exists b',
    snd (fst (scan_run (Some b) lines)) = Some b' /\
    cfg b' = cfg b /\
    f_ev_cb b' = f_ev_cb b /\
    disabled (Some b') = disabled (Some b).
Proof.
  revert b. induction lines as [| l rest IH]; intros b.
  - exists b. repeat split.
  - destruct (button_scan_frame b l) as (b1 & Hp & Hc & Hcb & Hd & _).
    rewrite scan_run_cons. cbn [fst snd]. rewrite Hp.
    destruct (IH b1) as (b2 & Hq & Hc2 & Hcb2 & Hd2).
    exists b2. split; [exact Hq |]. repeat split; congruence.
Qed.

(** X2: with a callback registered, the event kinds handed to it over a run
    of scans are exactly the return values of the scans that are not None,
    in the same order, one call per such scan; without a callback nothing is
    handed over. *)
Theorem callback_trace (b : button_t) (lines : list Z) :
  map ev_type (snd (scan_run (Some b) lines)) =
    match f_ev_cb b with
    | Some _ => reported (fst (fst (scan_run (Some b) lines)))
    | None => []
    end.
Proof.
  revert b. induction lines as [| l rest IH]; intros b.
  - cbn. destruct (f_ev_cb b); reflexivity.
  - destruct (button_scan_frame b l) as (b1 & Hp & _ & Hcb & _ & Hcalls).
    rewrite scan_run_cons. cbn [fst snd]. rewrite Hp, map_app, (IH b1), Hcb, Hcalls.
    unfold reported. cbn [filter].
    destruct (button_event_eqb (fst (fst (button_scan (Some b) l))) BTN_EVENT_NONE);
      cbn [negb]; destruct (f_ev_cb b); reflexivity.
Qed.

(** ** Where each event kind comes from *)

(** The event a scan of an enabled instance returns is the one the current
    handler returns on the instance as it was before the scan: the handlers
    do not read the debounce fields. *)
Lemma button_scan_event (b : button_t) (line : Z) (f : fn_ptr)
    (h : on_state_handler) :
  f_io_read (cfg b) = Some f -> handler (state b) = Some h ->
  fst (fst (button_scan (Some b) line)) =
    fst (call_handler h b (io_event_of b (fst (button_debounce b line)))).
Proof.
  intros Hf Hh. rewrite (button_scan_fsm b line f h Hf Hh). cbn [fst snd].
  destruct (button_debounce_frame b line) as (Hc1 & _).
  assert (Hio : io_event_of (snd (button_debounce b line))
                  (fst (button_debounce b line)) =
                io_event_of b (fst (button_debounce b line))).
  { unfold io_event_of. rewrite Hc1. reflexivity. }
  rewrite Hio.
  destruct (fsm_tick_same_machine (snd (button_debounce b line)) b
              (io_event_of b (fst (button_debounce b line)))
              (button_debounce_same_machine b line)) as (Hev & _).
  rewrite Hev, (fsm_tick_event b h _ Hh). reflexivity.
Qed.

Lemma dispatch_click_type_kind (k : Z) :
  dispatch_click_type k = BTN_EVENT_NONE \/
  is_click_event (dispatch_click_type k) = true.
Proof.
  unfold dispatch_click_type.
  destruct (Z.ltb_spec (to_uint32 k) 3) as [H3 | H3]; [| right; reflexivity].
  pose proof (Z.mod_pos_bound k (2 ^ 32) ltac:(lia)) as Hb.
  unfold to_uint32, wrap in *.
  assert (Hc : k mod 2 ^ 32 = 0 \/ k mod 2 ^ 32 = 1 \/ k mod 2 ^ 32 = 2) by lia.
  destruct Hc as [-> | [-> | ->]]; [left | right | right]; reflexivity.
Qed.

(** X3: a scan of an enabled instance returns Popup exactly when the
    debounced input is Released and the state is Down, DownShort or
    DownLong; no other state, and no Pressed input, produces a Popup. *)
Theorem popup_iff_release (b : button_t) (line : Z) (f : fn_ptr)
    (h : on_state_handler) :
  f_io_read (cfg b) = Some f ->
  handler (state b) = Some h ->
  fst (fst (button_scan (Some b) line)) = BTN_EVENT_POPUP <->
  io_event_of b (fst (button_debounce b line)) = BTN_IO_EVENT_UP /\
  logically_pressed h = true.
Proof.
  intros Hf Hh. rewrite (button_scan_event b line f h Hf Hh).
  set (io := io_event_of b (fst (button_debounce b line))). clearbody io.
  handler_cases h io;
  try match goal with
  | |- context [if ?x >=? ?y then _ else _] => destruct (x >=? y)
  end; cbn [fst];
  try (split; [discriminate | intros [? ?]; discriminate]);
  try (split; [intros _; split; reflexivity | reflexivity]).
  all: split; [| intros [? ?]; discriminate].
  all: intros He; exfalso;
    destruct (dispatch_click_type_kind (click_cnt (state b))) as [Hk | Hk];
    rewrite He in Hk; discriminate.
Qed.

(** X4: a scan of an enabled instance returns LongClick exactly when the
    state is Down, the debounced input is Pressed and the incremented
    counter has reached long_min_cnt; the instance is then in DownLong with
    a counter of 0 and an unchanged click count. *)
Theorem long_click_iff (b : button_t) (line : Z) (f : fn_ptr)
    (h : on_state_handler) :
  f_io_read (cfg b) = Some f ->
  handler (state b) = Some h ->
  (fst (fst (button_scan (Some b) line)) = BTN_EVENT_LONG_CLICK <->
   h = Down /\
   io_event_of b (fst (button_debounce b line)) = BTN_IO_EVENT_DOWN /\
   long_min_cnt (cfg b) <= to_counter (counter (state b) + 1)) /\
  (fst (fst (button_scan (Some b) line)) = BTN_EVENT_LONG_CLICK ->
   exists b',
     snd (fst (button_scan (Some b) line)) = Some b' /\
     handler (state b') = Some DownLong /\
     counter (state b') = 0 /\
     click_cnt (state b') = click_cnt (state b)).
Proof.
  intros Hf Hh.
  assert (Hiff : fst (fst (button_scan (Some b) line)) = BTN_EVENT_LONG_CLICK <->
                 h = Down /\
                 io_event_of b (fst (button_debounce b line)) = BTN_IO_EVENT_DOWN /\
                 long_min_cnt (cfg b) <= to_counter (counter (state b) + 1)).
  { rewrite (button_scan_event b line f h Hf Hh).
    set (io := io_event_of b (fst (button_debounce b line))). clearbody io.
    handler_cases h io;
    try match goal with
    | |- context [if ?x >=? ?y then _ else _] =>
        rewrite Z.geb_leb; destruct (Z.leb_spec y x)
    end; cbn [fst];
    try (split; [discriminate | intros (? & ? & ?); try discriminate; lia]);
    try (split; [intros _; repeat split; assumption | reflexivity]).
    all: split; [| intros (? & ? & ?); discriminate].
    all: intros He; exfalso;
      destruct (dispatch_click_type_kind (click_cnt (state b))) as [Hk | Hk];
      rewrite He in Hk; discriminate. }
  split; [exact Hiff |].
  intros He. apply Hiff in He. destruct He as (-> & Hio & Hge).
  rewrite (button_scan_fsm b line f Down Hf Hh). cbn [fst snd].
  destruct (button_debounce_frame b line) as (Hc1 & _ & Hh1 & Hn1 & Hk1).
  rewrite Hh in Hh1.
  assert (Hio1 : io_event_of (snd (button_debounce b line))
                   (fst (button_debounce b line)) = BTN_IO_EVENT_DOWN).
  { unfold io_event_of in *. rewrite Hc1. exact Hio. }
  rewrite Hio1. unfold fsm_tick. rewrite Hh1.
  cbn [call_handler on_down_handler set_counter cfg state counter].
  rewrite Hn1, Hc1, Z.geb_leb.
  destruct (Z.leb_spec (long_min_cnt (cfg b))
              (to_counter (counter (state b) + 1))); [| lia].
  eexists. split; [reflexivity |]. cbn. repeat split; try exact Hk1.
Qed.

(** X5: a scan of an enabled instance returns a click-type event
    (SingleClick, DoubleClick or MoreClick) only when the click window
    closes: in UpSuspense on a Released input, or in DownShort on a Pressed
    input, with the incremented counter at up_max_cnt or more; the event is
    then the classification of the instance's click count. *)
Theorem click_event_origin (b : button_t) (line : Z) (f : fn_ptr)
    (h : on_state_handler) :
  f_io_read (cfg b) = Some f ->
  handler (state b) = Some h ->
  is_click_event (fst (fst (button_scan (Some b) line))) = true ->
  (h = UpSuspense /\
   io_event_of b (fst (button_debounce b line)) = BTN_IO_EVENT_UP \/
   h = DownShort /\
   io_event_of b (fst (button_debounce b line)) = BTN_IO_EVENT_DOWN) /\
  up_max_cnt (cfg b) <= to_counter (counter (state b) + 1) /\
  fst (fst (button_scan (Some b) line)) =
    dispatch_click_type (click_cnt (state b)).
Proof.
  intros Hf Hh. rewrite (button_scan_event b line f h Hf Hh).
  set (io := io_event_of b (fst (button_debounce b line))). clearbody io.
  handler_cases h io;
  try match goal with
  | |- context [if ?x >=? ?y then _ else _] =>
      rewrite Z.geb_leb; destruct (Z.leb_spec y x)
  end; cbn [fst is_click_event]; try discriminate;
  intros _; repeat split; try assumption;
  solve [left; split; reflexivity | right; split; reflexivity].
Qed.

(** ** Invariants of the counters *)

Lemma counter_inv_tick (b : button_t) (io : BTN_IO_EVENT_E) :
  counter_inv b ->
  counter_inv (snd (fst (fsm_tick b io))) /\
  Forall long_click_has_one (snd (fsm_tick b io)).
Proof.
  destruct b as [c0 cb0 [h0 n0 k0 j0]]. unfold counter_inv, fsm_tick.
  cbn [handler state counter click_cnt cfg].
  destruct h0 as [h |]; [| intros _; split; [exact I | constructor]].
  intros Hinv.
  assert (Hw : 0 <= n0 -> 0 <= to_counter (n0 + 1)).
  { intros Hn. unfold to_counter.
    pose proof (wrap_bounds counter_bits (n0 + 1) ltac:(lia)). lia. }
  destruct h, io; cbn [call_handler on_idle_handler on_up_handler
    on_up_suspense_handler on_down_handler on_down_short_handler
    on_down_long_handler set_counter set_handler set_click_cnt
    cfg f_ev_cb state counter click_cnt handler jit];
  try match goal with
  | |- context [if ?x >=? ?y then _ else _] =>
      rewrite Z.geb_leb; destruct (Z.leb_spec y x)
  end;
  cbn [fst snd negb button_event_eqb set_counter set_handler set_click_cnt
       handler state counter click_cnt cfg f_ev_cb jit];
  (split;
   [ try exact I; try lia;
     try (destruct Hinv as (? & ? & ?); repeat split; lia);
     try (destruct Hinv as (? & ?); repeat split; lia)
   | try (destruct (negb _)); try destruct cb0;
     repeat constructor; unfold long_click_has_one; cbn [ev_type clicks];
     try discriminate;
     try (intros He; destruct (dispatch_click_type_kind k0) as [Hk | Hk];
          rewrite He in Hk; discriminate);
     try (intros _; destruct Hinv as (? & _); assumption) ]).
Qed.

Lemma counter_inv_scan (b : button_t) (line : Z) :
  counter_inv b ->
  exists b',
    snd (fst (button_scan (Some b) line)) = Some b' /\
    counter_inv b' /\
    Forall long_click_has_one (snd (button_scan (Some b) line)).
Proof.
  intros Hinv. destruct (disabled (Some b)) eqn:Hd.
  - rewrite (button_scan_disabled (Some b) line Hd). exists b.
    repeat split; [assumption | constructor].
  - unfold disabled in Hd.
    destruct (f_io_read (cfg b)) as [f |] eqn:Hf; [| discriminate Hd].
    destruct (handler (state b)) as [h |] eqn:Hh; [| discriminate Hd].
    rewrite (button_scan_fsm b line f h Hf Hh). cbn [fst snd].
    assert (Hinv1 : counter_inv (snd (button_debounce b line))) by exact Hinv.
    destruct (counter_inv_tick (snd (button_debounce b line))
                (io_event_of (snd (button_debounce b line))
                   (fst (button_debounce b line))) Hinv1) as [Hi Hc].
    eexists. split; [reflexivity |]. split; assumption.
Qed.

Lemma counter_inv_run (lines : list Z) : forall b : button_t,
  counter_inv b ->
  exists b',
    snd (fst (scan_run (Some b) lines)) = Some b' /\
    counter_inv b' /\
    Forall long_click_has_one (snd (scan_run (Some b) lines)).
Proof.
  induction lines as [| l rest IH]; intros b Hinv.
  - exists b. repeat split; [assumption | constructor].
  - destruct (counter_inv_scan b l Hinv) as (b1 & Hp & Hinv1 & Hc1).
    rewrite scan_run_cons. cbn [fst snd]. rewrite Hp.
    destruct (IH b1 Hinv1) as (b2 & Hq & Hinv2 & Hc2).
    exists b2. repeat split; try assumption.
    apply Forall_app. split; assumption.
Qed.

(** X6: in every instance reached from the constructor by any run of scans,
    a machine in Down has a click count of 1 and a counter that is 0 or
    below long_min_cnt, and a machine in DownShort or UpSuspense has a
    counter that is 0 or below up_max_cnt; the counter is not negative
    there. *)
Theorem counters_stay_below_thresholds (c : button_cfg_t)
    (cb : option fn_ptr) (btn : button_t) (lines : list Z) :
  exists b',
    snd (fst (scan_run (Some (button_ctor (Some c) cb btn)) lines)) = Some b' /\
    counter_inv b'.
Proof.
  destruct (counter_inv_run lines (button_ctor (Some c) cb btn) I)
    as (b' & Hp & Hinv & _).
  exists b'. split; assumption.
Qed.

(** X7: every LongClick handed to the callback, in any run of scans of an
    instance built by the constructor, carries a click count of 1: a long
    press is only recognised on the first press of a click window. *)
Theorem long_click_reports_one_click (c : button_cfg_t)
    (cb : option fn_ptr) (btn : button_t) (lines : list Z) (e : button_ev_t) :
  In e (snd (scan_run (Some (button_ctor (Some c) cb btn)) lines)) ->
  ev_type e = BTN_EVENT_LONG_CLICK ->
  clicks e = 1.
Proof.
  intros Hin He.
  destruct (counter_inv_run lines (button_ctor (Some c) cb btn) I)
    as (_ & _ & _ & Hall).
  rewrite Forall_forall in Hall. exact (Hall e Hin He).
Qed.

(** ** Further clicks of a window *)

Lemma up_suspense_tick_pressed (b : button_t) (n k : Z) :
  fsm_tick (in_state UpSuspense n k b) BTN_IO_EVENT_DOWN =
    (BTN_EVENT_NONE, in_state DownShort 0 (to_click (k + 1)) b, []).
Proof. reflexivity. Qed.

Lemma down_short_tick_released (b : button_t) (n k : Z) :
  fsm_tick (in_state DownShort n k b) BTN_IO_EVENT_UP =
    (BTN_EVENT_POPUP, in_state UpSuspense 0 k b,
     delivered (f_ev_cb b) BTN_EVENT_POPUP k).
Proof. reflexivity. Qed.

Lemma down_short_tick_below (b : button_t) (n k : Z) :
  to_counter (n + 1) < up_max_cnt (cfg b) ->
  fsm_tick (in_state DownShort n k b) BTN_IO_EVENT_DOWN =
    (BTN_EVENT_NONE, in_state DownShort (to_counter (n + 1)) k b, []).
Proof. intros H. fsm_tick_unfold. decide_geb. reflexivity. Qed.

Lemma down_short_tick_reach (b : button_t) (n k : Z) :
  up_max_cnt (cfg b) <= to_counter (n + 1) ->
  fsm_tick (in_state DownShort n k b) BTN_IO_EVENT_DOWN =
    (dispatch_click_type k, in_state DownLong 0 k b,
     closing_calls (f_ev_cb b) k).
Proof.
  intros H. fsm_tick_unfold. decide_geb. unfold closing_calls, delivered.
  destruct (button_event_eqb (dispatch_click_type k) BTN_EVENT_NONE);
    reflexivity.
Qed.

Lemma up_suspense_tick_close (b : button_t) (n k : Z) :
  up_max_cnt (cfg b) <= to_counter (n + 1) ->
  fsm_tick (in_state UpSuspense n k b) BTN_IO_EVENT_UP =
    (dispatch_click_type k, in_state Up 0 k b, closing_calls (f_ev_cb b) k).
Proof.
  intros H. fsm_tick_unfold. decide_geb. unfold closing_calls, delivered.
  destruct (button_event_eqb (dispatch_click_type k) BTN_EVENT_NONE);
    reflexivity.
Qed.

Lemma down_short_hold (b : button_t) (k : Z) (m : nat) : forall n : Z,
  0 <= n ->
  m = 0%nat \/ n + Z.of_nat m < up_max_cnt (cfg b) ->
  exists n',
    fsm_run (in_state DownShort n k b) (repeat BTN_IO_EVENT_DOWN m) =
      (repeat BTN_EVENT_NONE m, in_state DownShort n' k b, []) /\
    0 <= n' <= n + Z.of_nat m /\
    (n + Z.of_nat m < 2 ^ counter_bits -> n' = n + Z.of_nat m).
Proof.
  induction m as [| m IH]; intros n Hn Hm.
  - exists n. cbn [repeat fsm_run]. repeat split; lia.
  - destruct Hm as [Hm | Hm]; [discriminate Hm |].
    pose proof (wrap_bounds counter_bits (n + 1) ltac:(lia)) as Hw.
    fold (to_counter (n + 1)) in Hw.
    destruct (IH (to_counter (n + 1)) ltac:(lia) ltac:(right; lia))
      as (n' & Hrun & Hb & Hex).
    exists n'. cbn [repeat]. rewrite fsm_run_cons.
    rewrite down_short_tick_below by lia. cbn [fst snd]. rewrite Hrun.
    split; [reflexivity |]. split; [lia |].
    intros Hr. unfold to_counter in Hex.
    rewrite (wrap_small counter_bits (n + 1)) in Hex by lia. lia.
Qed.

(** The counted ticks that close a window, for any click count: in
    UpSuspense on Released inputs and in DownShort on Pressed inputs. *)
Lemma up_suspense_until_close (b : button_t) (k : Z) :
  up_max_cnt (cfg b) < 2 ^ counter_bits ->
  fsm_run (in_state UpSuspense 0 k b)
      (repeat BTN_IO_EVENT_UP (ticks_to_reach (up_max_cnt (cfg b)))) =
    (repeat BTN_EVENT_NONE (ticks_to_reach (up_max_cnt (cfg b)) - 1) ++
       [dispatch_click_type k],
     in_state Up 0 k b,
     closing_calls (f_ev_cb b) k).
Proof.
  intros Hr.
  destruct (ticks_to_reach_pos (up_max_cnt (cfg b))) as [Hpos Hval].
  destruct (ticks_to_reach (up_max_cnt (cfg b))) as [| g]; [lia |].
  replace (S g - 1)%nat with g by lia.
  rewrite repeat_snoc, fsm_run_app.
  destruct (up_suspense_hold b k g 0 ltac:(lia) ltac:(lia)) as (n' & Hrun & Hb & Hex).
  rewrite Hrun. cbn [fst snd].
  assert (Hn' : n' = Z.of_nat g) by lia. subst n'.
  cbn [fsm_run].
  assert (Hreach : up_max_cnt (cfg b) <= to_counter (Z.of_nat g + 1)).
  { destruct (Z.le_gt_cases (up_max_cnt (cfg b)) 0) as [H0 | H0].
    - pose proof (wrap_bounds counter_bits (Z.of_nat g + 1) ltac:(lia)) as Hw.
      unfold to_counter. lia.
    - unfold to_counter. rewrite wrap_small; lia. }
  rewrite (up_suspense_tick_close b (Z.of_nat g) k Hreach).
  cbn [fst snd app]. rewrite app_nil_r. reflexivity.
Qed.

Lemma down_short_until_close (b : button_t) (k : Z) :
  up_max_cnt (cfg b) < 2 ^ counter_bits ->
  fsm_run (in_state DownShort 0 k b)
      (repeat BTN_IO_EVENT_DOWN (ticks_to_reach (up_max_cnt (cfg b)))) =
    (repeat BTN_EVENT_NONE (ticks_to_reach (up_max_cnt (cfg b)) - 1) ++
       [dispatch_click_type k],
     in_state DownLong 0 k b,
     closing_calls (f_ev_cb b) k).
Proof.
  intros Hr.
  destruct (ticks_to_reach_pos (up_max_cnt (cfg b))) as [Hpos Hval].
  destruct (ticks_to_reach (up_max_cnt (cfg b))) as [| g]; [lia |].
  replace (S g - 1)%nat with g by lia.
  rewrite repeat_snoc, fsm_run_app.
  destruct (down_short_hold b k g 0 ltac:(lia) ltac:(lia)) as (n' & Hrun & Hb & Hex).
  rewrite Hrun. cbn [fst snd].
  assert (Hn' : n' = Z.of_nat g) by lia. subst n'.
  cbn [fsm_run].
  assert (Hreach : up_max_cnt (cfg b) <= to_counter (Z.of_nat g + 1)).
  { destruct (Z.le_gt_cases (up_max_cnt (cfg b)) 0) as [H0 | H0].
    - pose proof (wrap_bounds counter_bits (Z.of_nat g + 1) ltac:(lia)) as Hw.
      unfold to_counter. lia.
    - unfold to_counter. rewrite wrap_small; lia. }
  rewrite (down_short_tick_reach b (Z.of_nat g) k Hreach).
  cbn [fst snd app]. rewrite app_nil_r. reflexivity.
Qed.

(** X8: a further press of a click window that is held on, with up_max_cnt
    within the range of the counter.  From UpSuspense with a click count of
    k, the first pressed tick enters DownShort and makes the count k+1 (in
    its field).  On counted tick number max(1, up_max_cnt) after it, that is
    on pressed tick max(1, up_max_cnt) + 1, the window closes while the
    button is still down: the tick returns dispatch_click_type of the new
    count and the machine goes to DownLong.  Every other pressed tick
    returns None, the release returns Popup and leads to Up, the released
    ticks after it return None, so the window is not classified a second
    time.  The callback receives the classification (unless it is None) and
    the Popup, both with the new count. *)
Theorem down_short_timeout_run (b : button_t) (n k : Z) (j i : nat) :
  up_max_cnt (cfg b) < 2 ^ counter_bits ->
  fsm_run (in_state UpSuspense n k b)
      (repeat BTN_IO_EVENT_DOWN (1 + ticks_to_reach (up_max_cnt (cfg b)) + j) ++
       repeat BTN_IO_EVENT_UP (1 + i)) =
    (repeat BTN_EVENT_NONE (ticks_to_reach (up_max_cnt (cfg b))) ++
       [dispatch_click_type (to_click (k + 1))] ++ repeat BTN_EVENT_NONE j ++
       [BTN_EVENT_POPUP] ++ repeat BTN_EVENT_NONE i,
     in_state Up 0 (to_click (k + 1)) b,
     closing_calls (f_ev_cb b) (to_click (k + 1)) ++
       delivered (f_ev_cb b) BTN_EVENT_POPUP (to_click (k + 1))).
Proof.
  intros Hr.
  destruct (ticks_to_reach_pos (up_max_cnt (cfg b))) as [Hpos _].
  set (w := ticks_to_reach (up_max_cnt (cfg b))) in *.
  set (k' := to_click (k + 1)).
  replace (1 + w + j)%nat with (S (w + j)) by lia.
  cbn [repeat Nat.add app]. rewrite fsm_run_cons, up_suspense_tick_pressed.
  cbn [fst snd app]. fold k'. rewrite repeat_app, <- app_assoc.
  assert (Hclose : fsm_run (in_state DownShort 0 k' b) (repeat BTN_IO_EVENT_DOWN w) =
            (repeat BTN_EVENT_NONE (w - 1) ++ [dispatch_click_type k'],
             in_state DownLong 0 k' b, closing_calls (f_ev_cb b) k'))
    by exact (down_short_until_close b k' Hr).
  rewrite fsm_run_app, Hclose. cbn [fst snd].
  rewrite fsm_run_app, down_long_hold. cbn [fst snd].
  rewrite fsm_run_cons, down_long_tick_released. cbn [fst snd].
  change (in_state Up 0 k' (in_state DownLong 0 k' b))
    with (in_state Up 0 k' b).
  rewrite up_rest. cbn [fst snd app]. rewrite app_nil_r.
  do 2 f_equal. clear Hclose.
  destruct w as [| g]; [lia |].
  replace (S g - 1)%nat with g by lia. cbn [repeat app].
  rewrite <- app_assoc. reflexivity.
Qed.

(** One further click: from Down or DownShort, a release of [r] ticks and a
    press of [p] ticks that keep the window open. *)
Lemma gap_run (b : button_t) (h : on_state_handler) (n k : Z) (r p : nat) :
  h = Down \/ h = DownShort ->
  gap_ok (up_max_cnt (cfg b)) (r, p) ->
  exists n',
    fsm_run (in_state h n k b)
        (repeat BTN_IO_EVENT_UP r ++ repeat BTN_IO_EVENT_DOWN p) =
      (BTN_EVENT_POPUP :: repeat BTN_EVENT_NONE (r - 1) ++ repeat BTN_EVENT_NONE p,
       in_state DownShort n' (to_click (k + 1)) b,
       delivered (f_ev_cb b) BTN_EVENT_POPUP k).
Proof.
  intros Hh (Hr1 & Hr2 & Hp1 & Hp2). cbn [fst snd] in *.
  destruct r as [| r']; [lia |]. destruct p as [| p']; [lia |].
  replace (S r' - 1)%nat with r' by lia.
  assert (Hrel : fsm_tick (in_state h n k b) BTN_IO_EVENT_UP =
            (BTN_EVENT_POPUP, in_state UpSuspense 0 k b,
             delivered (f_ev_cb b) BTN_EVENT_POPUP k))
    by (destruct Hh as [-> | ->]; reflexivity).
  destruct (up_suspense_hold b k r' 0 ltac:(lia) ltac:(lia)) as (n1 & Hrun1 & _).
  destruct (down_short_hold b (to_click (k + 1)) p' 0 ltac:(lia) ltac:(lia))
    as (n2 & Hrun2 & _).
  exists n2.
  rewrite fsm_run_app. cbn [repeat]. rewrite fsm_run_cons, Hrel. cbn [fst snd].
  rewrite Hrun1. cbn [fst snd].
  rewrite fsm_run_cons, up_suspense_tick_pressed. cbn [fst snd].
  change (in_state DownShort 0 (to_click (k + 1)) (in_state UpSuspense n1 k b))
    with (in_state DownShort 0 (to_click (k + 1)) b).
  rewrite Hrun2. cbn [fst snd app]. rewrite !app_nil_r. reflexivity.
Qed.

Lemma gaps_run (b : button_t) (gaps : list (nat * nat)) :
  forall (h : on_state_handler) (n k : Z),
  h = Down \/ h = DownShort ->
  Forall (gap_ok (up_max_cnt (cfg b))) gaps ->
  exists h' n',
    (h' = Down \/ h' = DownShort) /\
    fsm_run (in_state h n k b) (gap_inputs gaps) =
      (gap_events gaps, in_state h' n' (clicks_after k gaps) b,
       gap_calls (f_ev_cb b) k gaps).
Proof.
  induction gaps as [| [r p] rest IH]; intros h n k Hh Hok.
  - exists h, n. split; [exact Hh | reflexivity].
  - inversion Hok as [| ? ? Hg Hrest]; subst.
    destruct (gap_run b h n k r p Hh Hg) as (n1 & Hrun1).
    destruct (IH DownShort n1 (to_click (k + 1)) ltac:(right; reflexivity) Hrest)
      as (h' & n' & Hh' & Hrun2).
    exists h', n'. split; [exact Hh' |].
    cbn [gap_inputs gap_events gap_calls clicks_after].
    rewrite app_assoc, fsm_run_app, Hrun1. cbn [fst snd]. rewrite Hrun2.
    cbn [fst snd app]. rewrite <- app_assoc. reflexivity.
Qed.

Lemma to_click_succ (x : Z) : to_click (to_click x + 1) = to_click (x + 1).
Proof.
  unfold to_click, wrap.
  destruct (Z.eq_dec (2 ^ click_bits) 0) as [E | E].
  - rewrite E, !Z.mod_0_r. reflexivity.
  - apply Z.add_mod_idemp_l. exact E.
Qed.

Lemma clicks_after_to_click (gaps : list (nat * nat)) : forall k : Z,
  clicks_after (to_click k) gaps = to_click (k + Z.of_nat (length gaps)).
Proof.
  induction gaps as [| g rest IH]; intros k.
  - cbn [clicks_after length]. f_equal. lia.
  - cbn [clicks_after length]. rewrite to_click_succ, IH. f_equal. lia.
Qed.

Lemma clicks_after_wrap (gaps : list (nat * nat)) (k : Z) :
  gaps <> [] ->
  clicks_after k gaps = to_click (k + Z.of_nat (length gaps)).
Proof.
  destruct gaps as [| g rest]; [contradiction |]. intros _.
  cbn [clicks_after length]. rewrite clicks_after_to_click. f_equal. lia.
Qed.

Lemma gap_calls_no_wrap (cb : option fn_ptr) (gaps : list (nat * nat)) :
  forall k : Z,
  0 <= k ->
  k + Z.of_nat (length gaps) < 2 ^ click_bits ->
  gap_calls cb k gaps = popup_calls cb k (length gaps) /\
  clicks_after k gaps = k + Z.of_nat (length gaps).
Proof.
  induction gaps as [| g rest IH]; intros k Hk Hlen.
  - cbn [gap_calls popup_calls clicks_after length]. split; [reflexivity | lia].
  - cbn [gap_calls popup_calls clicks_after length] in *.
    assert (Hw : to_click (k + 1) = k + 1)
      by (unfold to_click; apply wrap_small; lia).
    rewrite Hw. destruct (IH (k + 1) ltac:(lia) ltac:(lia)) as [Hc Ha].
    rewrite Hc, Ha. split; [reflexivity | lia].
Qed.

Lemma popup_calls_snoc (cb : option fn_ptr) (n : nat) : forall k : Z,
  popup_calls cb k n ++ delivered cb BTN_EVENT_POPUP (k + Z.of_nat n) =
    popup_calls cb k (S n).
Proof.
  induction n as [| n IH]; intros k.
  - cbn [popup_calls app Z.of_nat]. rewrite Z.add_0_r, app_nil_r. reflexivity.
  - cbn [popup_calls]. rewrite <- app_assoc.
    replace (k + Z.of_nat (S n)) with (k + 1 + Z.of_nat n) by lia.
    rewrite IH. reflexivity.
Qed.

(** A press from Idle or Up that stays below the long threshold. *)
Lemma rest_press_short (b : button_t) (n : nat) :
  handler (state b) = Some Idle \/ handler (state b) = Some Up ->
  (1 <= n)%nat ->
  Z.of_nat n <= long_min_cnt (cfg b) ->
  exists n',
    fsm_run b (repeat BTN_IO_EVENT_DOWN n) =
      (repeat BTN_EVENT_NONE n, in_state Down n' 1 b, []).
Proof.
  intros Hh Hn Hl. destruct n as [| g]; [lia |].
  assert (Htick : fsm_tick b BTN_IO_EVENT_DOWN =
            (BTN_EVENT_NONE, in_state Down 0 1 b, []))
    by (unfold fsm_tick; destruct Hh as [-> | ->]; reflexivity).
  cbn [repeat]. rewrite fsm_run_cons, Htick. cbn [fst snd].
  destruct (down_hold b 1 g 0 ltac:(lia) ltac:(lia)) as (n' & Hrun & _).
  exists n'. rewrite Hrun. reflexivity.
Qed.

(** A whole click window from a machine at rest, in terms of the click
    count the machine ends with. *)
Lemma click_window_run_from (b0 : button_t) (p1 : nat)
    (gaps : list (nat * nat)) (m : nat) :
  handler (state b0) = Some Idle \/ handler (state b0) = Some Up ->
  up_max_cnt (cfg b0) < 2 ^ counter_bits ->
  (1 <= p1)%nat ->
  Z.of_nat p1 <= long_min_cnt (cfg b0) ->
  Forall (gap_ok (up_max_cnt (cfg b0))) gaps ->
  (ticks_to_reach (up_max_cnt (cfg b0)) + 1 <= m)%nat ->
  fsm_run b0
      (repeat BTN_IO_EVENT_DOWN p1 ++ gap_inputs gaps ++
       repeat BTN_IO_EVENT_UP m) =
    (repeat BTN_EVENT_NONE p1 ++ gap_events gaps ++
       [BTN_EVENT_POPUP] ++
       repeat BTN_EVENT_NONE (ticks_to_reach (up_max_cnt (cfg b0)) - 1) ++
       [dispatch_click_type (clicks_after 1 gaps)] ++
       repeat BTN_EVENT_NONE (m - ticks_to_reach (up_max_cnt (cfg b0)) - 1),
     in_state Up 0 (clicks_after 1 gaps) b0,
     gap_calls (f_ev_cb b0) 1 gaps ++
       delivered (f_ev_cb b0) BTN_EVENT_POPUP (clicks_after 1 gaps) ++
       closing_calls (f_ev_cb b0) (clicks_after 1 gaps)).
Proof.
  intros Hh Hr Hp1 Hl Hok Hm.
  set (w := ticks_to_reach (up_max_cnt (cfg b0))) in *.
  set (K := clicks_after 1 gaps).
  set (j := (m - w - 1)%nat).
  replace m with (S (w + j)) by lia.
  destruct (rest_press_short b0 p1 Hh Hp1 Hl) as (n1 & Hrun1).
  destruct (gaps_run b0 gaps Down n1 1 ltac:(left; reflexivity) Hok)
    as (h' & n' & Hh' & Hrun2).
  rewrite fsm_run_app, Hrun1. cbn [fst snd].
  rewrite fsm_run_app, Hrun2. cbn [fst snd]. fold K.
  cbn [repeat]. rewrite fsm_run_cons.
  assert (Hrel : fsm_tick (in_state h' n' K b0) BTN_IO_EVENT_UP =
            (BTN_EVENT_POPUP, in_state UpSuspense 0 K b0,
             delivered (f_ev_cb b0) BTN_EVENT_POPUP K))
    by (destruct Hh' as [-> | ->]; reflexivity).
  rewrite Hrel. cbn [fst snd].
  assert (Hclose : fsm_run (in_state UpSuspense 0 K b0) (repeat BTN_IO_EVENT_UP w) =
            (repeat BTN_EVENT_NONE (w - 1) ++ [dispatch_click_type K],
             in_state Up 0 K b0, closing_calls (f_ev_cb b0) K))
    by exact (up_suspense_until_close b0 K Hr).
  rewrite repeat_app, fsm_run_app, Hclose. cbn [fst snd].
  change (in_state Up 0 K (in_state UpSuspense 0 K b0))
    with (in_state Up 0 K b0).
  rewrite up_rest. cbn [fst snd app]. rewrite !app_nil_r.
  rewrite <- (app_assoc (repeat BTN_EVENT_NONE (w - 1))). reflexivity.
Qed.

(** The same from the initial state. *)
Lemma click_window_run (c : button_cfg_t) (cb : option fn_ptr)
    (btn : button_t) (p1 : nat) (gaps : list (nat * nat)) (m : nat) :
  up_max_cnt c < 2 ^ counter_bits ->
  (1 <= p1)%nat ->
  Z.of_nat p1 <= long_min_cnt c ->
  Forall (gap_ok (up_max_cnt c)) gaps ->
  (ticks_to_reach (up_max_cnt c) + 1 <= m)%nat ->
  fsm_run (button_ctor (Some c) cb btn)
      (repeat BTN_IO_EVENT_DOWN p1 ++ gap_inputs gaps ++
       repeat BTN_IO_EVENT_UP m) =
    (repeat BTN_EVENT_NONE p1 ++ gap_events gaps ++
       [BTN_EVENT_POPUP] ++
       repeat BTN_EVENT_NONE (ticks_to_reach (up_max_cnt c) - 1) ++
       [dispatch_click_type (clicks_after 1 gaps)] ++
       repeat BTN_EVENT_NONE (m - ticks_to_reach (up_max_cnt c) - 1),
     in_state Up 0 (clicks_after 1 gaps) (button_ctor (Some c) cb btn),
     gap_calls cb 1 gaps ++
       delivered cb BTN_EVENT_POPUP (clicks_after 1 gaps) ++
       closing_calls cb (clicks_after 1 gaps)).
Proof.
  intros Hr Hp1 Hl Hok Hm.
  exact (click_window_run_from (button_ctor (Some c) cb btn) p1 gaps m
           (or_introl eq_refl) Hr Hp1 Hl Hok Hm).
Qed.

(** A multi-click from a machine at rest, when the click count does not
    wrap. *)
Lemma multi_click_from (b0 : button_t) (p1 : nat) (gaps : list (nat * nat))
    (m : nat) :
  handler (state b0) = Some Idle \/ handler (state b0) = Some Up ->
  up_max_cnt (cfg b0) < 2 ^ counter_bits ->
  1 + Z.of_nat (length gaps) < 2 ^ click_bits ->
  1 + Z.of_nat (length gaps) < 2 ^ 32 ->
  (1 <= p1)%nat ->
  Z.of_nat p1 <= long_min_cnt (cfg b0) ->
  Forall (gap_ok (up_max_cnt (cfg b0))) gaps ->
  (ticks_to_reach (up_max_cnt (cfg b0)) + 1 <= m)%nat ->
  fsm_run b0
      (repeat BTN_IO_EVENT_DOWN p1 ++ gap_inputs gaps ++
       repeat BTN_IO_EVENT_UP m) =
    (repeat BTN_EVENT_NONE p1 ++ gap_events gaps ++
       [BTN_EVENT_POPUP] ++
       repeat BTN_EVENT_NONE (ticks_to_reach (up_max_cnt (cfg b0)) - 1) ++
       [classify (1 + Z.of_nat (length gaps))] ++
       repeat BTN_EVENT_NONE (m - ticks_to_reach (up_max_cnt (cfg b0)) - 1),
     in_state Up 0 (1 + Z.of_nat (length gaps)) b0,
     popup_calls (f_ev_cb b0) 1 (S (length gaps)) ++
       delivered (f_ev_cb b0) (classify (1 + Z.of_nat (length gaps)))
         (1 + Z.of_nat (length gaps))) /\
  classify (1 + Z.of_nat (length gaps)) <> BTN_EVENT_NONE.
Proof.
  intros Hh Hr Hk Hk32 Hp1 Hl Hok Hm.
  rewrite (click_window_run_from b0 p1 gaps m Hh Hr Hp1 Hl Hok Hm).
  destruct (gap_calls_no_wrap (f_ev_cb b0) gaps 1 ltac:(lia) Hk) as [Hc Ha].
  rewrite Ha, Hc.
  set (K := 1 + Z.of_nat (length gaps)) in *.
  assert (Hd : dispatch_click_type K = classify K)
    by (apply dispatch_click_type_classify; unfold K; lia).
  assert (Hne : classify K <> BTN_EVENT_NONE).
  { unfold classify.
    destruct (Z.eqb_spec K 0); [unfold K in *; lia |].
    destruct (K =? 1); [discriminate |].
    destruct (K =? 2); discriminate. }
  split; [| exact Hne].
  unfold closing_calls. rewrite Hd.
  destruct (button_event_eqb (classify K) BTN_EVENT_NONE) eqn:E.
  - destruct (classify K); try discriminate E. contradiction.
  - rewrite (app_assoc (popup_calls (f_ev_cb b0) 1 (length gaps))). unfold K.
    rewrite (popup_calls_snoc (f_ev_cb b0) (length gaps) 1). reflexivity.
Qed.

(** X9: a multi-click, on a machine at rest (in Idle, or in Up as the
    scans leave it), with up_max_cnt within the range of the counter and
    n + 1 within the range of the click count and of 32 bits.  A first press
    of at least one and at most long_min_cnt ticks, then n further clicks,
    each a release and a press of at least one and at most
    max(1, up_max_cnt) ticks, then a release of at least
    max(1, up_max_cnt) + 1 ticks: every release returns Popup on its first
    tick, the window closes on released tick max(1, up_max_cnt) + 1 of the
    last release with the classification of n + 1 clicks (1 SingleClick, 2
    DoubleClick, 3 or more MoreClick), every other tick returns None, the
    machine ends in Up with a counter of 0 and a click count of n + 1, and
    the callback receives the Popups with the click counts 1 to n + 1 and
    then the classification with n + 1. *)
Theorem multi_click_run (b0 : button_t) (p1 : nat) (gaps : list (nat * nat))
    (m : nat) :
  handler (state b0) = Some Idle \/ handler (state b0) = Some Up ->
  up_max_cnt (cfg b0) < 2 ^ counter_bits ->
  1 + Z.of_nat (length gaps) < 2 ^ click_bits ->
  1 + Z.of_nat (length gaps) < 2 ^ 32 ->
  (1 <= p1)%nat ->
  Z.of_nat p1 <= long_min_cnt (cfg b0) ->
  Forall (gap_ok (up_max_cnt (cfg b0))) gaps ->
  (ticks_to_reach (up_max_cnt (cfg b0)) + 1 <= m)%nat ->
  fsm_run b0
      (repeat BTN_IO_EVENT_DOWN p1 ++ gap_inputs gaps ++
       repeat BTN_IO_EVENT_UP m) =
    (repeat BTN_EVENT_NONE p1 ++ gap_events gaps ++
       [BTN_EVENT_POPUP] ++
       repeat BTN_EVENT_NONE (ticks_to_reach (up_max_cnt (cfg b0)) - 1) ++
       [classify (1 + Z.of_nat (length gaps))] ++
       repeat BTN_EVENT_NONE (m - ticks_to_reach (up_max_cnt (cfg b0)) - 1),
     in_state Up 0 (1 + Z.of_nat (length gaps)) b0,
     popup_calls (f_ev_cb b0) 1 (S (length gaps)) ++
       delivered (f_ev_cb b0) (classify (1 + Z.of_nat (length gaps)))
         (1 + Z.of_nat (length gaps))) /\
  classify (1 + Z.of_nat (length gaps)) <> BTN_EVENT_NONE.
Proof.
  intros Hh Hr Hk Hk32 Hp1 Hl Hok Hm.
  destruct (multi_click_from b0 p1 gaps m Hh Hr Hk Hk32 Hp1 Hl Hok Hm)
    as [Hrun Hne].
  split; [exact Hrun | exact Hne].
Qed.

(** X10: the click count has no overflow guard.  When the number of clicks
    of a window is a multiple of the range of the click count field, the
    stored count is 0 when the window closes: the closing tick returns None
    like every tick after the last Popup, and the callback receives the
    Popups only. *)
Theorem click_count_wraps (c : button_cfg_t) (cb : option fn_ptr)
    (btn : button_t) (p1 : nat) (gaps : list (nat * nat)) (m : nat) :
  up_max_cnt c < 2 ^ counter_bits ->
  gaps <> [] ->
  to_click (1 + Z.of_nat (length gaps)) = 0 ->
  (1 <= p1)%nat ->
  Z.of_nat p1 <= long_min_cnt c ->
  Forall (gap_ok (up_max_cnt c)) gaps ->
  (ticks_to_reach (up_max_cnt c) + 1 <= m)%nat ->
  fsm_run (button_ctor (Some c) cb btn)
      (repeat BTN_IO_EVENT_DOWN p1 ++ gap_inputs gaps ++
       repeat BTN_IO_EVENT_UP m) =
    (repeat BTN_EVENT_NONE p1 ++ gap_events gaps ++
       [BTN_EVENT_POPUP] ++ repeat BTN_EVENT_NONE (m - 1),
     in_state Up 0 0 (button_ctor (Some c) cb btn),
     gap_calls cb 1 gaps ++ delivered cb BTN_EVENT_POPUP 0).
Proof.
  intros Hr Hne Hz Hp1 Hl Hok Hm.
  rewrite (click_window_run c cb btn p1 gaps m Hr Hp1 Hl Hok Hm).
  rewrite (clicks_after_wrap gaps 1 Hne), Hz.
  destruct (ticks_to_reach_pos (up_max_cnt c)) as [Hpos _].
  set (w := ticks_to_reach (up_max_cnt c)) in *.
  change (dispatch_click_type 0) with BTN_EVENT_NONE.
  change (closing_calls cb 0) with (@nil button_ev_t).
  rewrite !app_nil_r. f_equal. f_equal. do 3 f_equal.
  change [BTN_EVENT_NONE] with (repeat BTN_EVENT_NONE 1).
  rewrite <- !repeat_app. f_equal. lia.
Qed.

(** ** Glitches *)

Lemma same_machine_jit_eq (b b' : button_t) :
  same_machine b b' -> jit (state b) = jit (state b') -> b = b'.
Proof.
  destruct b as [c0 cb0 [h0 n0 k0 j0]], b' as [c1 cb1 [h1 n1 k1 j1]].
  unfold same_machine. cbn. intros (H1 & H2 & H3 & H4 & H5) H6. subst.
  reflexivity.
Qed.

Lemma same_machine_sym (b b' : button_t) :
  same_machine b b' -> same_machine b' b.
Proof.
  unfold same_machine. intros (? & ? & ? & ? & ?). repeat split; congruence.
Qed.

(** Two instances with the same machine, scanned with samples on which
    their filters give the same level, return and deliver the same, and
    their machines stay the same. *)
Lemma button_scan_same_machine (b b' : button_t) (l l' : Z) :
  same_machine b b' ->
  fst (button_debounce b l) = fst (button_debounce b' l') ->
  exists r r',
    snd (fst (button_scan (Some b) l)) = Some r /\
    snd (fst (button_scan (Some b') l')) = Some r' /\
    fst (fst (button_scan (Some b) l)) = fst (fst (button_scan (Some b') l')) /\
    snd (button_scan (Some b) l) = snd (button_scan (Some b') l') /\
    same_machine r r' /\
    (disabled (Some b) = false ->
       jit (state r) = jit (state (snd (button_debounce b l))) /\
       jit (state r') = jit (state (snd (button_debounce b' l')))).
Proof.
  intros Hm Hlv. pose proof Hm as (Hc & Hcb & Hh & Hn & Hk).
  assert (Hdd : disabled (Some b') = disabled (Some b))
    by (unfold disabled; rewrite Hc, Hh; reflexivity).
  destruct (disabled (Some b)) eqn:Hd.
  - rewrite (button_scan_disabled (Some b) l Hd),
            (button_scan_disabled (Some b') l' Hdd).
    exists b, b'. repeat split; try assumption; discriminate.
  - unfold disabled in Hd.
    destruct (f_io_read (cfg b)) as [f |] eqn:Hf; [| discriminate Hd].
    destruct (handler (state b)) as [h |] eqn:Hhb; [| discriminate Hd].
    rewrite (button_scan_fsm b l f h Hf Hhb).
    rewrite (button_scan_fsm b' l' f h ltac:(congruence) ltac:(congruence)).
    cbn [fst snd].
    set (b1 := snd (button_debounce b l)).
    set (b1' := snd (button_debounce b' l')).
    assert (Hm1 : same_machine b1 b1').
    { apply (same_machine_trans b1 b b1'); [apply button_debounce_same_machine |].
      apply (same_machine_trans b b' b1'); [exact Hm |].
      apply same_machine_sym, button_debounce_same_machine. }
    assert (Hio : io_event_of b1' (fst (button_debounce b' l')) =
                  io_event_of b1 (fst (button_debounce b l))).
    { unfold io_event_of. destruct Hm1 as (Hc1 & _). rewrite Hc1, Hlv.
      reflexivity. }
    rewrite Hio.
    set (io := io_event_of b1 (fst (button_debounce b l))).
    destruct (fsm_tick_same_machine b1 b1' io Hm1) as (Hev & Hcalls & Hm2).
    assert (Hh1 : handler (state b1) <> None).
    { destruct (button_debounce_frame b l) as (_ & _ & Hx & _).
      fold b1 in Hx. rewrite Hx, Hhb. discriminate. }
    assert (Hh1' : handler (state b1') <> None).
    { destruct Hm1 as (_ & _ & Hx & _). rewrite <- Hx. exact Hh1. }
    destruct (fsm_tick_keeps_enabled b1 io Hh1) as (_ & _ & Hj).
    destruct (fsm_tick_keeps_enabled b1' io Hh1') as (_ & _ & Hj').
    eexists. eexists.
    split; [reflexivity |]. split; [reflexivity |].
    split; [exact Hev |]. split; [exact Hcalls |]. split; [exact Hm2 |].
    intros _. split; assumption.
Qed.

(** X11: the filter hides a one-sample glitch completely.  On an instance
    whose two debounce fields hold the same level v, scanning any binary
    sample g and then v gives the same returned events, the same callback
    calls and the same final instance as scanning v twice, whatever follows. *)
Theorem glitch_is_invisible (b : button_t) (v g : Z) (rest : list Z) :
  is_level v -> is_level g ->
  asserted (jit (state b)) = v ->
  previous (jit (state b)) = v ->
  scan_run (Some b) (g :: v :: rest) = scan_run (Some b) (v :: v :: rest).
Proof.
  intros Hv Hg Ha Hp.
  assert (Hok : jit_ok b) by (unfold jit_ok; rewrite Ha, Hp; split; assumption).
  destruct (disabled (Some b)) eqn:Hd.
  - assert (Hrun : forall lines, scan_run (Some b) lines =
              (repeat BTN_EVENT_NONE (length lines), Some b, [])).
    { induction lines as [| x xs IH]; [reflexivity |].
      cbn [scan_run length repeat].
      rewrite (button_scan_disabled (Some b) x Hd), IH. reflexivity. }
    rewrite !Hrun. reflexivity.
  - assert (Hsame : same_machine b b) by (unfold same_machine; repeat split).
    assert (Hout : fst (button_debounce b g) = fst (button_debounce b v)).
    { rewrite (debounce_step b g Hok Hg), (debounce_step b v Hok Hv).
      cbn [fst]. rewrite Ha, Hp, Z.eqb_refl.
      destruct (Z.eqb_spec v g); congruence. }
    destruct (button_scan_same_machine b b g v Hsame Hout)
      as (r & r' & Hr & Hr' & Hev & Hcalls & Hm & Hj).
    destruct (Hj Hd) as [Hjr Hjr'].
    rewrite (debounce_step b g Hok Hg) in Hjr.
    rewrite (debounce_step b v Hok Hv) in Hjr'.
    cbn [snd set_jit state jit] in Hjr, Hjr'.
    rewrite Ha, Hp in Hjr, Hjr'. rewrite Z.eqb_refl in Hjr'.
    assert (Hjr2 : jit (state r) = mk_jit v g)
      by (rewrite Hjr; destruct (Z.eqb_spec v g); congruence).
    clear Hjr.
    assert (Hokr : jit_ok r)
      by (unfold jit_ok; rewrite Hjr2; split; assumption).
    assert (Hokr' : jit_ok r')
      by (unfold jit_ok; rewrite Hjr'; split; assumption).
    assert (Hout2 : fst (button_debounce r v) = fst (button_debounce r' v)).
    { rewrite (debounce_step r v Hokr Hv), (debounce_step r' v Hokr' Hv).
      cbn [fst]. rewrite Hjr2, Hjr'. cbn [asserted previous].
      rewrite Z.eqb_refl. destruct (g =? v); reflexivity. }
    destruct (button_scan_same_machine r r' v v Hm Hout2)
      as (r2 & r2' & Hr2 & Hr2' & Hev2 & Hcalls2 & Hm2 & Hj2).
    assert (Hdr : disabled (Some r) = false).
    { destruct (button_scan_frame b g) as (x & Hx & _ & _ & Hdx & _).
      rewrite Hr in Hx. injection Hx as <-. rewrite Hdx. exact Hd. }
    destruct (Hj2 Hdr) as [Hjr3 Hjr3'].
    rewrite (debounce_step r v Hokr Hv) in Hjr3.
    rewrite (debounce_step r' v Hokr' Hv) in Hjr3'.
    cbn [snd set_jit state jit] in Hjr3, Hjr3'.
    rewrite Hjr2 in Hjr3. rewrite Hjr' in Hjr3'. cbn [asserted previous] in *.
    rewrite Z.eqb_refl in Hjr3'.
    assert (Heq : r2 = r2').
    { apply same_machine_jit_eq; [exact Hm2 |].
      rewrite Hjr3, Hjr3'. destruct (g =? v); reflexivity. }
    rewrite (scan_run_cons (Some b) g), (scan_run_cons (Some b) v).
    rewrite Hr, Hr', Hev, Hcalls.
    rewrite (scan_run_cons (Some r) v), (scan_run_cons (Some r') v).
    rewrite Hr2, Hr2', Hev2, Hcalls2, Heq. reflexivity.
Qed.

(** ** Polarity *)

(** The handlers read the thresholds, the counters and the callback, not
    the active level or the debounce fields. *)
Lemma fsm_tick_same_timing (b b' : button_t) (io : BTN_IO_EVENT_E) :
  up_max_cnt (cfg b') = up_max_cnt (cfg b) ->
  long_min_cnt (cfg b') = long_min_cnt (cfg b) ->
  f_ev_cb b' = f_ev_cb b ->
  handler (state b') = handler (state b) ->
  counter (state b') = counter (state b) ->
  click_cnt (state b') = click_cnt (state b) ->
  fst (fst (fsm_tick b' io)) = fst (fst (fsm_tick b io)) /\
  snd (fsm_tick b' io) = snd (fsm_tick b io) /\
  handler (state (snd (fst (fsm_tick b' io)))) =
    handler (state (snd (fst (fsm_tick b io)))) /\
  counter (state (snd (fst (fsm_tick b' io)))) =
    counter (state (snd (fst (fsm_tick b io)))) /\
  click_cnt (state (snd (fst (fsm_tick b' io)))) =
    click_cnt (state (snd (fst (fsm_tick b io)))) /\
  cfg (snd (fst (fsm_tick b io))) = cfg b /\
  cfg (snd (fst (fsm_tick b' io))) = cfg b' /\
  f_ev_cb (snd (fst (fsm_tick b io))) = f_ev_cb b /\
  f_ev_cb (snd (fst (fsm_tick b' io))) = f_ev_cb b' /\
  jit (state (snd (fst (fsm_tick b io)))) = jit (state b) /\
  jit (state (snd (fst (fsm_tick b' io)))) = jit (state b').
Proof.
  destruct b as [[f0 a0 u0 g0] cb0 [h0 n0 k0 j0]],
           b' as [[f1 a1 u1 g1] cb1 [h1 n1 k1 j1]].
  cbn [cfg up_max_cnt long_min_cnt f_ev_cb state handler counter click_cnt].
  intros Hu Hg Hcb Hh Hn Hk. subst u1 g1 cb1 h1 n1 k1.
  unfold fsm_tick. cbn [handler state].
  destruct h0 as [h |]; [| cbn; repeat split].
  destruct h, io; cbn [call_handler on_idle_handler on_up_handler
    on_up_suspense_handler on_down_handler on_down_short_handler
    on_down_long_handler set_counter set_handler set_click_cnt
    cfg f_ev_cb state counter click_cnt handler jit up_max_cnt long_min_cnt];
  try (cbn; repeat split);
  match goal with
  | |- context [if ?x >=? ?y then _ else _] => destruct (x >=? y)
  end; cbn; repeat split.
Qed.

Lemma flip_sample_level (x : Z) : is_level x -> is_level (flip_sample x).
Proof. unfold is_level, flip_sample. lia. Qed.

Lemma mirrored_scan (b bf : button_t) (l : Z) :
  mirrored b bf -> is_level l ->
  exists r rf,
    snd (fst (button_scan (Some b) l)) = Some r /\
    snd (fst (button_scan (Some bf) (flip_sample l))) = Some rf /\
    fst (fst (button_scan (Some bf) (flip_sample l))) =
      fst (fst (button_scan (Some b) l)) /\
    snd (button_scan (Some bf) (flip_sample l)) = snd (button_scan (Some b) l) /\
    mirrored r rf.
Proof.
  intros Hm Hl.
  pose proof Hm as (Hf & Hact & Hu & Hg & Hcb & Hh & Hn & Hk & Hok & Ha & Hp).
  assert (Hdd : disabled (Some bf) = disabled (Some b))
    by (unfold disabled; rewrite Hf, Hh; reflexivity).
  destruct (disabled (Some b)) eqn:Hd.
  - rewrite (button_scan_disabled (Some b) l Hd),
            (button_scan_disabled (Some bf) (flip_sample l) Hdd).
    exists b, bf. split; [reflexivity |]. split; [reflexivity |].
    split; [reflexivity |]. split; [reflexivity | exact Hm].
  - unfold disabled in Hd.
    destruct (f_io_read (cfg b)) as [f |] eqn:Ef; [| discriminate Hd].
    destruct (handler (state b)) as [h |] eqn:Eh; [| discriminate Hd].
    assert (Hokf : jit_ok bf).
    { destruct Hok as [H1 H2]. unfold jit_ok. rewrite Ha, Hp.
      split; apply flip_sample_level; assumption. }
    pose proof (flip_sample_level l Hl) as Hlf.
    rewrite (button_scan_fsm b l f h Ef Eh).
    rewrite (button_scan_fsm bf (flip_sample l) f h Hf Hh).
    rewrite (debounce_step b l Hok Hl), (debounce_step bf (flip_sample l) Hokf Hlf).
    cbn [fst snd]. rewrite Ha, Hp.
    set (a := asserted (jit (state b))) in *.
    set (p := previous (jit (state b))) in *.
    set (o := if p =? l then l else a).
    assert (Ho : is_level o).
    { unfold o. destruct Hok as [H1 H2]. destruct (p =? l); assumption. }
    assert (Hof : (if flip_sample p =? flip_sample l
                   then flip_sample l else flip_sample a) = flip_sample o).
    { unfold o, flip_sample.
      destruct (Z.eqb_spec p l), (Z.eqb_spec (1 - p) (1 - l)); try reflexivity; lia. }
    rewrite Hof.
    set (b1 := set_jit (mk_jit o l) b).
    set (bf1 := set_jit (mk_jit (flip_sample o) (flip_sample l)) bf).
    assert (Hio : io_event_of bf1 (flip_sample o) = io_event_of b1 o).
    { unfold io_event_of, bf1, b1. cbn [set_jit cfg]. rewrite Hact.
      unfold flip_sample.
      destruct Ho as [-> | ->], (active_lv (cfg b)); reflexivity. }
    rewrite Hio.
    destruct (fsm_tick_same_timing b1 bf1 (io_event_of b1 o)
                Hu Hg Hcb (eq_trans Hh (eq_sym Eh)) Hn Hk)
      as (Hev & Hcalls & Hh2 & Hn2 & Hk2 & Hc2 & Hc2f & Hcb2 & Hcb2f & Hj2 & Hj2f).
    eexists. eexists. split; [reflexivity |]. split; [reflexivity |].
    split; [exact Hev |]. split; [exact Hcalls |].
    unfold mirrored, jit_ok.
    rewrite Hc2, Hc2f, Hcb2, Hcb2f, Hj2, Hj2f, Hh2, Hn2, Hk2.
    unfold b1, bf1. cbn [set_jit cfg f_ev_cb state jit asserted previous].
    repeat split; try assumption; congruence.
Qed.

Lemma mirrored_run (lines : list Z) : forall b bf : button_t,
  mirrored b bf -> Forall is_level lines ->
  fst (fst (scan_run (Some bf) (map flip_sample lines))) =
    fst (fst (scan_run (Some b) lines)) /\
  snd (scan_run (Some bf) (map flip_sample lines)) =
    snd (scan_run (Some b) lines).
Proof.
  induction lines as [| l rest IH]; intros b bf Hm Hl.
  - split; reflexivity.
  - inversion Hl as [| ? ? Hx Hrest]; subst.
    destruct (mirrored_scan b bf l Hm Hx) as (r & rf & Hr & Hrf & Hev & Hc & Hm').
    cbn [map]. rewrite !scan_run_cons. cbn [fst snd].
    rewrite Hr, Hrf, Hev, Hc.
    destruct (IH r rf Hm' Hrest) as [IHev IHc].
    rewrite IHev, IHc. split; reflexivity.
Qed.

(** X12: the two polarities behave alike.  An instance built with the
    opposite active level and fed the complemented binary samples returns
    the same events and makes the same callback calls, scan by scan, as the
    instance built with the given active level on the given samples. *)
Theorem active_level_symmetry (c : button_cfg_t) (cb : option fn_ptr)
    (btn : button_t) (lines : list Z) :
  Forall is_level lines ->
  fst (fst (scan_run (Some (button_ctor (Some (flip_cfg c)) cb btn))
              (map flip_sample lines))) =
    fst (fst (scan_run (Some (button_ctor (Some c) cb btn)) lines)) /\
  snd (scan_run (Some (button_ctor (Some (flip_cfg c)) cb btn))
         (map flip_sample lines)) =
    snd (scan_run (Some (button_ctor (Some c) cb btn)) lines).
Proof.
  intros Hl. apply mirrored_run; [| exact Hl].
  unfold mirrored. destruct c as [f [] u g]; cbn;
    repeat split; solve [reflexivity | left; reflexivity | right; reflexivity].
Qed.

(** ** The filter on clean signals *)

Lemma debounce_run_clean (lines : list Z) : forall b : button_t,
  jit_ok b ->
  Forall is_level lines ->
  clean_from (asserted (jit (state b))) (previous (jit (state b))) lines = true ->
  fst (debounce_run b lines) = removelast (previous (jit (state b)) :: lines).
Proof.
  induction lines as [| x rest IH]; intros b Hok Hl Hclean; [reflexivity |].
  inversion Hl as [| ? ? Hx Hrest]; subst.
  cbn [clean_from] in Hclean. apply andb_prop in Hclean.
  destruct Hclean as [Hc Hclean].
  destruct (debounce_jit_ok b x Hok Hx) as (Hok1 & Hp1 & Ha1).
  assert (Hout : fst (button_debounce b x) = previous (jit (state b))).
  { rewrite (debounce_step b x Hok Hx). cbn [fst].
    apply orb_prop in Hc.
    destruct (Z.eqb_spec (previous (jit (state b))) x) as [E | E];
      [symmetry; exact E |].
    destruct Hc as [Hc | Hc]; apply Z.eqb_eq in Hc; congruence. }
  cbn [debounce_run].
  destruct (button_debounce b x) as [lv b1] eqn:E. cbn [fst snd] in *.
  specialize (IH b1 Hok1 Hrest). rewrite Ha1, Hp1, Hout in IH.
  specialize (IH Hclean).
  destruct (debounce_run b1 rest) as [lvs b2]. cbn [fst] in *.
  rewrite IH, Hout. destruct rest; reflexivity.
Qed.

(** X13: on a clean signal the filter is a delay of one tick.  When every
    sample that differs from its predecessor finds the two debounce fields
    in agreement, the level the filter returns on each tick is the sample
    of the tick before (the stored previous sample on the first tick), and
    the stable level stored after the run is the last of these. *)
Theorem debounce_delays_clean_signal (b : button_t) (lines : list Z) :
  jit_ok b ->
  Forall is_level lines ->
  clean_from (asserted (jit (state b))) (previous (jit (state b))) lines = true ->
  fst (debounce_run b lines) = removelast (previous (jit (state b)) :: lines) /\
  asserted (jit (state (snd (debounce_run b lines)))) =
    last (removelast (previous (jit (state b)) :: lines))
      (asserted (jit (state b))).
Proof.
  intros Hok Hl Hclean.
  pose proof (debounce_run_clean lines b Hok Hl Hclean) as Hout.
  split; [exact Hout |].
  destruct (debounce_run_jit_ok lines b Hok Hl) as [_ Ha].
  rewrite Ha. unfold debounce_out. rewrite Hout. reflexivity.
Qed.

(** ** Click windows on raw samples *)

Lemma clean_from_run (a p x : Z) (n : nat) (rest : list Z) :
  (2 <= n)%nat ->
  x = p \/ a = p ->
  clean_from a p (repeat x n ++ rest) = clean_from x x rest.
Proof.
  intros Hn Hc. destruct n as [| [| n]]; try lia.
  cbn [repeat app clean_from].
  assert (H1 : ((x =? p) || (a =? p)) = true).
  { apply orb_true_iff. destruct Hc as [-> | ->]; [left | right];
      apply Z.eqb_refl. }
  rewrite H1, Z.eqb_refl. cbn [orb andb]. clear Hn H1 Hc.
  induction n as [| n IH]; [reflexivity |].
  cbn [repeat app clean_from]. rewrite Z.eqb_refl. cbn [orb andb]. exact IH.
Qed.

Lemma clean_from_raw_gaps (act rel : Z) (gaps : list (nat * nat))
    (tail : list Z) :
  Forall gap_debounced gaps ->
  clean_from act act (raw_gaps act rel gaps ++ tail) = clean_from act act tail.
Proof.
  induction gaps as [| [r p] rest IH]; intros Hg; [reflexivity |].
  inversion Hg as [| ? ? [Hr Hp] Hrest]; subst. cbn [fst snd] in *.
  cbn [raw_gaps]. rewrite <- !app_assoc.
  rewrite (clean_from_run act act rel r _ Hr (or_intror eq_refl)).
  rewrite (clean_from_run rel rel act p _ Hp (or_intror eq_refl)).
  apply IH. exact Hrest.
Qed.

Lemma removelast_repeat_tail {A : Type} (l : list A) (x : A) (k : nat) :
  removelast (l ++ repeat x (S k)) = l ++ repeat x k.
Proof.
  rewrite repeat_snoc, app_assoc. apply removelast_last.
Qed.

Lemma map_raw_gaps (b : button_t) (gaps : list (nat * nat)) :
  map (io_event_of b)
      (raw_gaps (level_val (active_lv (cfg b)))
         (released_level (active_lv (cfg b))) gaps) =
    gap_inputs gaps.
Proof.
  assert (Hact : io_event_of b (level_val (active_lv (cfg b))) = BTN_IO_EVENT_DOWN)
    by (unfold io_event_of; rewrite Z.eqb_refl; reflexivity).
  assert (Hrel : io_event_of b (released_level (active_lv (cfg b))) = BTN_IO_EVENT_UP)
    by (unfold io_event_of; destruct (active_lv (cfg b)); reflexivity).
  induction gaps as [| [r p] rest IH]; [reflexivity |].
  cbn [raw_gaps gap_inputs]. rewrite !map_app, !map_repeat, Hact, Hrel, IH.
  reflexivity.
Qed.

Lemma raw_gaps_levels (act rel : Z) (gaps : list (nat * nat)) :
  is_level act -> is_level rel -> Forall is_level (raw_gaps act rel gaps).
Proof.
  intros Ha Hr. induction gaps as [| [r p] rest IH]; [constructor |].
  cbn [raw_gaps]. rewrite !Forall_app. repeat split; try exact IH;
    apply Forall_forall; intros y Hy; apply repeat_spec in Hy; subst; assumption.
Qed.

(** Scanning the raw samples of a click window with a fresh enabled
    instance: the first scan sees a released line and moves Idle to Up; the
    later ones run the machine on the samples delayed by one tick. *)
Lemma raw_clicks_scan (c : button_cfg_t) (cb : option fn_ptr)
    (btn : button_t) (p1 : nat) (gaps : list (nat * nat)) (m' : nat) :
  f_io_read c <> None ->
  (2 <= p1)%nat ->
  Forall gap_debounced gaps ->
  (1 <= m')%nat ->
  fst (fst (scan_run (Some (button_ctor (Some c) cb btn))
              (raw_clicks c p1 gaps (S m')))) =
    BTN_EVENT_NONE ::
      fst (fst (fsm_run (set_handler (Some Up) (button_ctor (Some c) cb btn))
                  (repeat BTN_IO_EVENT_DOWN p1 ++ gap_inputs gaps ++
                   repeat BTN_IO_EVENT_UP m'))) /\
  snd (scan_run (Some (button_ctor (Some c) cb btn))
         (raw_clicks c p1 gaps (S m'))) =
    snd (fsm_run (set_handler (Some Up) (button_ctor (Some c) cb btn))
           (repeat BTN_IO_EVENT_DOWN p1 ++ gap_inputs gaps ++
            repeat BTN_IO_EVENT_UP m')).
Proof.
  intros Hf Hp1 Hdeb Hm.
  set (b0 := button_ctor (Some c) cb btn).
  set (act := level_val (active_lv c)).
  set (rel := released_level (active_lv c)).
  assert (Hact : is_level act) by (unfold act; destruct (active_lv c); [left | right]; reflexivity).
  assert (Hrel : is_level rel) by (unfold rel; destruct (active_lv c); [right | left]; reflexivity).
  assert (Ha0 : asserted (jit (state b0)) = rel)
    by (unfold b0, rel; destruct c as [f [] u g]; reflexivity).
  assert (Hp0 : previous (jit (state b0)) = rel)
    by (unfold b0, rel; destruct c as [f [] u g]; reflexivity).
  (* the filter delays the samples by one tick *)
  assert (Hlv : Forall is_level (raw_clicks c p1 gaps (S m'))).
  { unfold raw_clicks. rewrite !Forall_app. repeat split.
    - apply Forall_forall; intros y Hy; apply repeat_spec in Hy; subst; exact Hact.
    - apply raw_gaps_levels; assumption.
    - apply Forall_forall; intros y Hy; apply repeat_spec in Hy; subst; exact Hrel. }
  assert (Hclean : clean_from rel rel (raw_clicks c p1 gaps (S m')) = true).
  { unfold raw_clicks. fold act rel.
    rewrite (clean_from_run rel rel act p1 _ Hp1 (or_intror eq_refl)).
    rewrite (clean_from_raw_gaps act rel gaps _ Hdeb).
    rewrite <- (app_nil_r (repeat rel (S m'))).
    rewrite (clean_from_run act act rel (S m') [] ltac:(lia) (or_intror eq_refl)).
    reflexivity. }
  pose proof (debounce_run_clean (raw_clicks c p1 gaps (S m')) b0
                (button_ctor_jit_ok c cb btn) Hlv) as Hdelay.
  rewrite Ha0, Hp0 in Hdelay. specialize (Hdelay Hclean).
  assert (Hshift : removelast (rel :: raw_clicks c p1 gaps (S m')) =
                   rel :: repeat act p1 ++ raw_gaps act rel gaps ++ repeat rel m').
  { unfold raw_clicks. fold act rel.
    change (rel :: repeat act p1 ++ raw_gaps act rel gaps ++ repeat rel (S m'))
      with ((rel :: repeat act p1) ++ raw_gaps act rel gaps ++ repeat rel (S m')).
    rewrite app_assoc, removelast_repeat_tail, <- app_assoc. reflexivity. }
  (* the scans are the machine on the delayed levels *)
  destruct (scan_run_fsm_run_gen (raw_clicks c p1 gaps (S m')) b0 b0 b0)
    as [Hev Hcalls]; try assumption; try reflexivity; try discriminate.
  { unfold same_machine. repeat split. }
  rewrite Hev, Hcalls, Hdelay, Hshift. clear Hev Hcalls Hdelay Hshift Hclean Hlv.
  cbn [map]. rewrite !map_app, !map_repeat.
  assert (Hioa : io_event_of b0 act = BTN_IO_EVENT_DOWN)
    by (unfold io_event_of, act; cbn [b0 button_ctor cfg]; rewrite Z.eqb_refl; reflexivity).
  assert (Hior : io_event_of b0 rel = BTN_IO_EVENT_UP)
    by (unfold io_event_of, rel; cbn [b0 button_ctor cfg];
        destruct (active_lv c); reflexivity).
  rewrite Hioa, Hior.
  assert (Hgaps : map (io_event_of b0) (raw_gaps act rel gaps) = gap_inputs gaps)
    by exact (map_raw_gaps b0 gaps).
  rewrite Hgaps.
  rewrite fsm_run_cons.
  change (fsm_tick b0 BTN_IO_EVENT_UP)
    with (BTN_EVENT_NONE, set_handler (Some Up) b0, @nil button_ev_t).
  cbn [fst snd app]. split; reflexivity.
Qed.

(** X14: a multi-click on the raw line, with up_max_cnt within the range of
    the counter and n + 1 within the range of the click count and of 32
    bits.  An enabled instance fresh from the constructor is scanned with a
    first press of at least 2 and at most long_min_cnt active samples, then
    n further clicks, each a release and a press of at least 2 and at most
    up_max_cnt samples, then a release of at least max(1, up_max_cnt) + 2
    samples.  Every scan returns None except that each release returns
    Popup on its second sample and the last release returns the
    classification of n + 1 clicks max(1, up_max_cnt) scans after its
    Popup; the callback receives the Popups with the click counts 1 to
    n + 1 and then the classification with n + 1. *)
Theorem raw_multi_click_run (c : button_cfg_t) (cb : option fn_ptr)
    (btn : button_t) (p1 : nat) (gaps : list (nat * nat)) (m : nat) :
  f_io_read c <> None ->
  up_max_cnt c < 2 ^ counter_bits ->
  1 + Z.of_nat (length gaps) < 2 ^ click_bits ->
  1 + Z.of_nat (length gaps) < 2 ^ 32 ->
  (2 <= p1)%nat ->
  Z.of_nat p1 <= long_min_cnt c ->
  Forall (gap_ok (up_max_cnt c)) gaps ->
  Forall gap_debounced gaps ->
  (ticks_to_reach (up_max_cnt c) + 2 <= m)%nat ->
  fst (fst (scan_run (Some (button_ctor (Some c) cb btn))
              (raw_clicks c p1 gaps m))) =
    BTN_EVENT_NONE :: repeat BTN_EVENT_NONE p1 ++ gap_events gaps ++
      [BTN_EVENT_POPUP] ++
      repeat BTN_EVENT_NONE (ticks_to_reach (up_max_cnt c) - 1) ++
      [classify (1 + Z.of_nat (length gaps))] ++
      repeat BTN_EVENT_NONE (m - ticks_to_reach (up_max_cnt c) - 2) /\
  snd (scan_run (Some (button_ctor (Some c) cb btn))
         (raw_clicks c p1 gaps m)) =
    popup_calls cb 1 (S (length gaps)) ++
      delivered cb (classify (1 + Z.of_nat (length gaps)))
        (1 + Z.of_nat (length gaps)).
Proof.
  intros Hf Hr Hk Hk32 Hp1 Hl Hok Hdeb Hm.
  destruct m as [| m']; [lia |].
  destruct (raw_clicks_scan c cb btn p1 gaps m' Hf Hp1 Hdeb ltac:(lia))
    as [Hev Hcalls].
  rewrite Hev, Hcalls.
  assert (Hm' : (ticks_to_reach (up_max_cnt c) + 1 <= m')%nat) by lia.
  assert (Hp1' : (1 <= p1)%nat) by lia.
  destruct (multi_click_from
              (set_handler (Some Up) (button_ctor (Some c) cb btn)) p1 gaps m'
              (or_intror eq_refl) Hr Hk Hk32 Hp1' Hl Hok Hm')
    as [Hrun _].
  rewrite Hrun. cbn [fst snd].
  replace (S m' - ticks_to_reach (up_max_cnt c) - 2)%nat
    with (m' - ticks_to_reach (up_max_cnt c) - 1)%nat by lia.
  split; reflexivity.
Qed.

(** ** Presses the filter does not let through *)

Lemma scan_run_disabled (p_btn : option button_t) (lines : list Z) :
  disabled p_btn = true ->
  scan_run p_btn lines = (repeat BTN_EVENT_NONE (length lines), p_btn, []).
Proof.
  intros Hd. induction lines as [| x xs IH]; [reflexivity |].
  cbn [scan_run length repeat].
  rewrite (button_scan_disabled p_btn x Hd), IH. reflexivity.
Qed.

Lemma resting_scan (c : button_cfg_t) (b : button_t) (x : Z) :
  f_io_read c <> None ->
  resting c b -> is_level x ->
  negb ((x =? level_val (active_lv c)) &&
        (previous (jit (state b)) =? level_val (active_lv c))) = true ->
  exists b',
    button_scan (Some b) x = (BTN_EVENT_NONE, Some b', []) /\
    resting c b' /\
    previous (jit (state b')) = x.
Proof.
  intros Hf (Hc & Hh & Ha & Hp) Hx Hiso.
  destruct b as [c0 cb0 [h0 n0 k0 [a0 p0]]]. cbn in Hc, Hh, Ha, Hp, Hiso.
  subst c0 a0. destruct c as [f lv u lg]. cbn [active_lv f_io_read] in *.
  destruct f as [f |]; [| contradiction].
  destruct Hh as [-> | ->], lv, Hp as [-> | ->], Hx as [-> | ->];
    try discriminate Hiso;
    eexists; (split; [reflexivity |]); unfold resting, is_level; cbn;
    repeat split; auto.
Qed.

Lemma resting_run (c : button_cfg_t) (lines : list Z) : forall b : button_t,
  f_io_read c <> None ->
  resting c b ->
  Forall is_level lines ->
  isolated_presses (level_val (active_lv c)) (previous (jit (state b))) lines
    = true ->
  fst (fst (scan_run (Some b) lines)) = repeat BTN_EVENT_NONE (length lines) /\
  snd (scan_run (Some b) lines) = [].
Proof.
  induction lines as [| x rest IH]; intros b Hf Hb Hl Hiso; [split; reflexivity |].
  inversion Hl as [| ? ? Hx Hrest]; subst.
  cbn [isolated_presses] in Hiso. apply andb_prop in Hiso.
  destruct Hiso as [H1 H2].
  destruct (resting_scan c b x Hf Hb Hx H1) as (b' & Hscan & Hb' & Hp').
  rewrite scan_run_cons, Hscan. cbn [fst snd app length repeat].
  rewrite <- Hp' in H2.
  destruct (IH b' Hf Hb' Hrest H2) as [Hev Hcalls].
  rewrite Hev, Hcalls. split; reflexivity.
Qed.

(** X15: presses of a single sample are ignored.  As long as no two
    consecutive binary samples are at the active level, an instance fresh
    from the constructor returns None on every scan and never calls the
    callback, however many such one-sample presses the run holds. *)
Theorem isolated_presses_are_ignored (c : button_cfg_t) (cb : option fn_ptr)
    (btn : button_t) (lines : list Z) :
  Forall is_level lines ->
  isolated_presses (level_val (active_lv c)) (released_level (active_lv c))
    lines = true ->
  fst (fst (scan_run (Some (button_ctor (Some c) cb btn)) lines)) =
    repeat BTN_EVENT_NONE (length lines) /\
  snd (scan_run (Some (button_ctor (Some c) cb btn)) lines) = [].
Proof.
  intros Hl Hiso.
  destruct (f_io_read c) as [f |] eqn:Hf.
  - apply (resting_run c lines); try assumption.
    + rewrite Hf. discriminate.
    + unfold resting. destruct c as [f0 [] u g]; cbn;
        repeat split; auto; solve [left; reflexivity | right; reflexivity].
    + replace (previous (jit (state (button_ctor (Some c) cb btn))))
        with (released_level (active_lv c))
        by (destruct c as [f0 [] u g]; reflexivity).
      exact Hiso.
  - rewrite scan_run_disabled; [split; reflexivity |].
    unfold disabled. cbn [button_ctor cfg]. rewrite Hf. reflexivity.
Qed.

(** ** Long presses on raw samples *)

(** A long press from a machine at rest. *)
Lemma long_press_from (b0 : button_t) (k j : nat) :
  handler (state b0) = Some Idle \/ handler (state b0) = Some Up ->
  long_min_cnt (cfg b0) < 2 ^ counter_bits ->
  fsm_run b0
      (repeat BTN_IO_EVENT_DOWN (1 + ticks_to_reach (long_min_cnt (cfg b0)) + k) ++
       [] ++ repeat BTN_IO_EVENT_UP (1 + j)) =
    (repeat BTN_EVENT_NONE (ticks_to_reach (long_min_cnt (cfg b0))) ++
       [BTN_EVENT_LONG_CLICK] ++ repeat BTN_EVENT_NONE k ++
       [BTN_EVENT_POPUP] ++ repeat BTN_EVENT_NONE j,
     in_state Up 0 1 b0,
     delivered (f_ev_cb b0) BTN_EVENT_LONG_CLICK 1 ++
       delivered (f_ev_cb b0) BTN_EVENT_POPUP 1).
Proof.
  intros Hh Hr.
  destruct (ticks_to_reach_pos (long_min_cnt (cfg b0))) as [Hpos _].
  set (h := ticks_to_reach (long_min_cnt (cfg b0))) in *.
  assert (Htick : fsm_tick b0 BTN_IO_EVENT_DOWN =
            (BTN_EVENT_NONE, in_state Down 0 1 b0, []))
    by (unfold fsm_tick; destruct Hh as [-> | ->]; reflexivity).
  replace (1 + h + k)%nat with (S (h + k)) by lia.
  cbn [repeat Nat.add app]. rewrite fsm_run_cons, Htick.
  cbn [fst snd app]. rewrite repeat_app, <- app_assoc.
  assert (Hlong : fsm_run (in_state Down 0 1 b0) (repeat BTN_IO_EVENT_DOWN h) =
            (repeat BTN_EVENT_NONE (h - 1) ++ [BTN_EVENT_LONG_CLICK],
             in_state DownLong 0 1 b0,
             delivered (f_ev_cb b0) BTN_EVENT_LONG_CLICK 1))
    by exact (down_until_long b0 1 Hr).
  rewrite fsm_run_app, Hlong. cbn [fst snd].
  rewrite fsm_run_app, down_long_hold. cbn [fst snd].
  rewrite fsm_run_cons, down_long_tick_released. cbn [fst snd].
  change (in_state Up 0 1 (in_state DownLong 0 1 (in_state Down 0 1 b0)))
    with (in_state Up 0 1 b0).
  rewrite up_rest. cbn [fst snd app]. rewrite app_nil_r.
  do 2 f_equal. clear Hlong.
  destruct h as [| g]; [lia |].
  replace (S g - 1)%nat with g by lia. cbn [repeat app].
  rewrite <- app_assoc. reflexivity.
Qed.

(** X16: a long press on the raw line.  An enabled instance fresh from the
    constructor, scanned with at least long_min_cnt + 1 active samples (at
    least 2) and then at least 2 released samples, returns LongClick exactly
    once, on scan number long_min_cnt + 2 (number 3 when long_min_cnt is 0),
    and Popup on the second released sample; every other scan returns None,
    no click-type event is returned, and the callback receives LongClick and
    Popup, both with a click count of 1. *)
Theorem raw_long_click_run (c : button_cfg_t) (cb : option fn_ptr)
    (btn : button_t) (k j : nat) :
  f_io_read c <> None ->
  long_min_cnt c < 2 ^ counter_bits ->
  fst (fst (scan_run (Some (button_ctor (Some c) cb btn))
              (raw_clicks c (1 + ticks_to_reach (long_min_cnt c) + k) []
                 (2 + j)))) =
    repeat BTN_EVENT_NONE (1 + ticks_to_reach (long_min_cnt c)) ++
      [BTN_EVENT_LONG_CLICK] ++ repeat BTN_EVENT_NONE k ++
      [BTN_EVENT_POPUP] ++ repeat BTN_EVENT_NONE j /\
  snd (scan_run (Some (button_ctor (Some c) cb btn))
         (raw_clicks c (1 + ticks_to_reach (long_min_cnt c) + k) []
            (2 + j))) =
    delivered cb BTN_EVENT_LONG_CLICK 1 ++ delivered cb BTN_EVENT_POPUP 1.
Proof.
  intros Hf Hr.
  destruct (ticks_to_reach_pos (long_min_cnt c)) as [Hpos _].
  destruct (raw_clicks_scan c cb btn
              (1 + ticks_to_reach (long_min_cnt c) + k) [] (1 + j)
              Hf ltac:(lia) ltac:(constructor) ltac:(lia))
    as [Hev Hcalls].
  change (2 + j)%nat with (S (1 + j)).
  rewrite Hev, Hcalls. cbn [gap_inputs].
  pose proof (long_press_from
                (set_handler (Some Up) (button_ctor (Some c) cb btn))
                k j (or_intror eq_refl) Hr) as Hrun.
  change (cfg (set_handler (Some Up) (button_ctor (Some c) cb btn)))
    with c in Hrun.
  change (f_ev_cb (set_handler (Some Up) (button_ctor (Some c) cb btn)))
    with cb in Hrun.
  rewrite Hrun. cbn [fst snd]. split; reflexivity.
Qed.

(** ** Idle is the initial state only *)

Lemma fsm_tick_not_idle (b : button_t) (io : BTN_IO_EVENT_E)
    (h : on_state_handler) :
  handler (state b) = Some h ->
  handler (state (snd (fst (fsm_tick b io)))) <> Some Idle.
Proof.
  intros Hh. destruct b as [c0 cb0 [h0 n0 k0 j0]]. cbn [handler state] in *.
  subst h0. unfold fsm_tick. cbn [handler state].
  destruct h, io; cbn [call_handler on_idle_handler on_up_handler
    on_up_suspense_handler on_down_handler on_down_short_handler
    on_down_long_handler set_counter set_handler set_click_cnt
    cfg f_ev_cb state counter click_cnt handler jit];
  try match goal with
  | |- context [if ?x >=? ?y then _ else _] => destruct (x >=? y)
  end; cbn; discriminate.
Qed.

(** X17: no scan of an enabled instance ends in Idle.  Idle is the state the
    constructor sets and the first scan leaves; after any non-empty run of
    scans the machine is in one of the other five states. *)
Theorem idle_is_initial_only (b : button_t) (lines : list Z) :
  disabled (Some b) = false ->
  lines <> [] ->
  exists b' h,
    snd (fst (scan_run (Some b) lines)) = Some b' /\
    handler (state b') = Some h /\
    h <> Idle.
Proof.
  revert b. induction lines as [| l rest IH]; intros b Hd Hne; [contradiction |].
  pose proof Hd as Hd0. unfold disabled in Hd0.
  destruct (f_io_read (cfg b)) as [f |] eqn:Hf; [| discriminate Hd0].
  destruct (handler (state b)) as [h |] eqn:Hh; [| discriminate Hd0].
  destruct (button_scan_frame b l) as (b1 & Hp & _ & _ & Hd1 & _).
  rewrite Hd in Hd1.
  assert (Hidle : handler (state b1) <> Some Idle).
  { rewrite (button_scan_fsm b l f h Hf Hh) in Hp. cbn [fst snd] in Hp.
    injection Hp as <-.
    destruct (button_debounce_frame b l) as (_ & _ & Hh1 & _).
    rewrite Hh in Hh1. apply (fsm_tick_not_idle _ _ h Hh1). }
  rewrite scan_run_cons. cbn [fst snd]. rewrite Hp.
  destruct rest as [| l' rest'].
  - cbn [scan_run fst snd]. unfold disabled in Hd1.
    destruct (f_io_read (cfg b1)); [| discriminate Hd1].
    destruct (handler (state b1)) as [h1 |] eqn:Hh1; [| discriminate Hd1].
    exists b1, h1. split; [reflexivity |]. split; [exact Hh1 |].
    intros E. apply Hidle. rewrite E. reflexivity.
  - apply (IH b1 Hd1). discriminate.
Qed.

End Button.

(** * Concrete runs, with 16-bit counters *)

(** C1: the output should be 1 exactly when the two most recent samples
    are both 1, by the table (0,1)->0, (1,1)->1, (0,0)->0, (1,0)->0 that the
    comments of [button_debounce] give.  The filter departs from it: on a
    fresh active-high instance the samples 1, 1, 0 give the outputs 0, 1, 1,
    so the output is still 1 on the pair (1,0) and one low sample did not
    force it to 0; after 1, 1, 0, 1 the output is 1 on the pair (0,1). *)
Lemma debounce_two_sample_counterexample :
  fst (debounce_run btn_example [1; 1; 0]) = [0; 1; 1] /\
  debounce_out btn_example [1; 1; 0] = 1 /\
  last_two_high [1; 1; 0] = false /\
  pair_table 1 0 = 0 /\
  debounce_out btn_example [1; 1; 0; 1] = 1 /\
  last_two_high [1; 1; 0; 1] = false /\
  pair_table 0 1 = 0.
Proof. vm_compute. repeat split; reflexivity. Qed.

Lemma debounce_two_sample_hysteresis_witness :
  debounce_out btn_example ([1] ++ [1; 0]) =
    (if 1 =? 0 then 0 else debounce_out btn_example ([1] ++ [1])) /\
  debounce_out btn_example ([1] ++ [1; 0]) = 1.
Proof.
  assert (Hb : jit_ok btn_example) by (split; left; reflexivity).
  assert (Hl : Forall is_level [1]) by (repeat constructor; right; reflexivity).
  assert (H1 : is_level 1) by (right; reflexivity).
  assert (H0 : is_level 0) by (left; reflexivity).
  pose proof (debounce_two_sample_hysteresis btn_example [1] 1 0 Hb Hl H1 H0)
    as (Heq & Hiff & _).
  split; [exact Heq |].
  apply Hiff. right. split; [reflexivity | left; reflexivity].
Defined.

Lemma button_debounce_formula_witness :
  button_debounce btn_example 1 = (0, set_jit (mk_jit 0 1) btn_example).
Proof.
  apply (button_debounce_formula btn_example 1).
  - split; left; reflexivity.
  - right; reflexivity.
Defined.

(** C2, as stated, fails: after the samples 1, 1, 0, 0, 1 the machine is in
    UpSuspense with a click count of 1; the next sample 1 is the second
    press of a double click: the scan returns None, calls nothing, and the
    click count is 2. *)
Lemma none_tick_counterexample :
  match snd (fst (scan_run 16 16 (Some btn_example) [1; 1; 0; 0; 1])) with
  | Some b =>
      handler (state b) = Some UpSuspense /\
      click_cnt (state b) = 1 /\
      match button_scan 16 16 (Some b) 1 with
      | (ev, Some b', calls) =>
          ev = BTN_EVENT_NONE /\ calls = [] /\ click_cnt (state b') = 2
      | _ => False
      end
  | None => False
  end.
Proof. vm_compute. repeat split; reflexivity. Qed.

Lemma none_tick_effect_witness :
  snd (button_scan 16 16 (Some btn_example) 1) = [] /\
  exists b',
    snd (fst (button_scan 16 16 (Some btn_example) 1)) = Some b' /\
    click_cnt (state b') = 9.
Proof.
  apply (none_tick_effect 16 16 btn_example 1). reflexivity.
Defined.

(** C3, as stated, fails: with long_min_cnt = 5 a press of exactly 5 ticks
    returns no LongClick; its release returns Popup and, once the window
    of 3 counted ticks has closed, SingleClick.  This is so for 5 Pressed
    inputs of the state machine and for 5 active raw samples of the scan. *)
Lemma long_click_counterexample :
  fst (fst (fsm_run 16 16 btn_example
              (repeat BTN_IO_EVENT_DOWN 5 ++ repeat BTN_IO_EVENT_UP 5))) =
    [BTN_EVENT_NONE; BTN_EVENT_NONE; BTN_EVENT_NONE; BTN_EVENT_NONE;
     BTN_EVENT_NONE; BTN_EVENT_POPUP; BTN_EVENT_NONE; BTN_EVENT_NONE;
     BTN_EVENT_SINGLE_CLICK; BTN_EVENT_NONE] /\
  fst (fst (scan_run 16 16 (Some btn_example)
              (repeat 1 5 ++ repeat 0 6))) =
    [BTN_EVENT_NONE; BTN_EVENT_NONE; BTN_EVENT_NONE; BTN_EVENT_NONE;
     BTN_EVENT_NONE; BTN_EVENT_NONE; BTN_EVENT_POPUP; BTN_EVENT_NONE;
     BTN_EVENT_NONE; BTN_EVENT_SINGLE_CLICK; BTN_EVENT_NONE].
Proof. vm_compute. split; reflexivity. Qed.

Lemma long_click_run_witness :
  fst (fst (fsm_run 16 16 btn_example
              (repeat BTN_IO_EVENT_DOWN 8 ++ repeat BTN_IO_EVENT_UP 2))) =
    [BTN_EVENT_NONE; BTN_EVENT_NONE; BTN_EVENT_NONE; BTN_EVENT_NONE;
     BTN_EVENT_NONE; BTN_EVENT_LONG_CLICK; BTN_EVENT_NONE; BTN_EVENT_NONE;
     BTN_EVENT_POPUP; BTN_EVENT_NONE].
Proof.
  assert (Hr : long_min_cnt cfg_example < 2 ^ 16) by reflexivity.
  exact (f_equal (fun r => fst (fst r))
           (proj1 (long_click_run 16 16 cfg_example (Some 2%positive)
                     stack_garbage 2 1 Hr))).
Defined.

(** C5, as stated, fails: with up_max_cnt = 3 a press followed by a release
    of exactly 3 ticks returns Popup and no SingleClick.  This is so for one
    Pressed and 3 Released inputs of the state machine and for 2 active and
    3 inactive raw samples of the scan. *)
Lemma single_click_counterexample :
  fst (fst (fsm_run 16 16 btn_example
              (repeat BTN_IO_EVENT_DOWN 1 ++ repeat BTN_IO_EVENT_UP 3))) =
    [BTN_EVENT_NONE; BTN_EVENT_POPUP; BTN_EVENT_NONE; BTN_EVENT_NONE] /\
  fst (fst (scan_run 16 16 (Some btn_example)
              (repeat 1 2 ++ repeat 0 3))) =
    [BTN_EVENT_NONE; BTN_EVENT_NONE; BTN_EVENT_NONE; BTN_EVENT_POPUP;
     BTN_EVENT_NONE].
Proof. vm_compute. split; reflexivity. Qed.

Lemma single_click_run_witness :
  fsm_run 16 16 btn_example
      (repeat BTN_IO_EVENT_DOWN 2 ++ repeat BTN_IO_EVENT_UP 5) =
    ([BTN_EVENT_NONE; BTN_EVENT_NONE; BTN_EVENT_POPUP; BTN_EVENT_NONE;
      BTN_EVENT_NONE; BTN_EVENT_SINGLE_CLICK; BTN_EVENT_NONE],
     in_state Up 0 1 btn_example,
     [mk_ev BTN_EVENT_POPUP 1; mk_ev BTN_EVENT_SINGLE_CLICK 1]).
Proof.
  apply (single_click_run 16 16 cfg_example (Some 2%positive) stack_garbage
           2%nat 5%nat).
  - reflexivity.
  - repeat constructor.
  - reflexivity.
  - vm_compute. repeat constructor.
Defined.

Lemma on_down_short_pressed_witness :
  fst (fsm_tick 16 16 (in_state DownShort 2 2 btn_example) BTN_IO_EVENT_DOWN) =
    (BTN_EVENT_DOUBLE_CLICK, in_state DownLong 0 2 btn_example) /\
  fsm_tick 16 16 (in_state DownShort 0 2 btn_example) BTN_IO_EVENT_DOWN =
    (BTN_EVENT_NONE, in_state DownShort 1 2 btn_example, []).
Proof.
  assert (Hk : 0 <= 2 < 2 ^ 32) by (split; [discriminate | reflexivity]).
  split.
  - apply (on_down_short_pressed 16 16 (in_state DownShort 2 2 btn_example)
             eq_refl Hk).
    discriminate.
  - apply (on_down_short_pressed 16 16 (in_state DownShort 0 2 btn_example)
             eq_refl Hk).
    reflexivity.
Defined.

Lemma scan_disabled_is_noop_witness :
  button_scan 16 16 None 1 = (BTN_EVENT_NONE, None, []) /\
  scan_run 16 16 (Some (button_ctor None (Some 2%positive) stack_garbage))
      [1; 1; 0] =
    ([BTN_EVENT_NONE; BTN_EVENT_NONE; BTN_EVENT_NONE],
     Some (button_ctor None (Some 2%positive) stack_garbage), []).
Proof.
  split.
  - apply (scan_disabled_is_noop 16 16 None 1 [] None stack_garbage eq_refl).
  - apply (scan_disabled_is_noop 16 16 None 1 [1; 1; 0] (Some 2%positive)
             stack_garbage eq_refl).
Defined.

Lemma release_emits_popup_witness :
  fst (fst (button_scan 16 16 (Some (in_state Down 2 1 btn_example)) 0)) =
    BTN_EVENT_POPUP.
Proof.
  apply (release_emits_popup 16 16 (in_state Down 2 1 btn_example) Down
           1%positive 0 eq_refl eq_refl eq_refl).
  discriminate.
Defined.

Lemma ctor_starts_released_witness :
  fst (fst (scan_run 16 16 (Some btn_example) [0; 0; 0])) =
    [BTN_EVENT_NONE; BTN_EVENT_NONE; BTN_EVENT_NONE] /\
  snd (scan_run 16 16 (Some btn_example) [0; 0; 0]) = [].
Proof.
  apply (ctor_starts_released 16 16 cfg_example (Some 2%positive)
           stack_garbage [0; 0; 0]).
  repeat constructor.
Defined.

(** * Concrete runs for the further properties *)

Lemma popup_iff_release_witness :
  fst (fst (button_scan 16 16 (Some (in_state Down 2 1 btn_example)) 0)) =
    BTN_EVENT_POPUP.
Proof.
  apply (popup_iff_release 16 16 (in_state Down 2 1 btn_example) 0
           1%positive Down eq_refl eq_refl).
  split; reflexivity.
Defined.

Lemma long_click_iff_witness :
  fst (fst (button_scan 16 16
              (Some (set_jit (mk_jit 0 1) (in_state Down 4 1 btn_example))) 1)) =
    BTN_EVENT_LONG_CLICK.
Proof.
  destruct (long_click_iff 16 16
              (set_jit (mk_jit 0 1) (in_state Down 4 1 btn_example)) 1
              1%positive Down eq_refl eq_refl) as [Hiff _].
  apply Hiff. split; [reflexivity |]. split; [reflexivity |].
  vm_compute. discriminate.
Defined.

Lemma click_event_origin_witness :
  up_max_cnt (cfg (in_state UpSuspense 2 2 btn_example)) <=
    to_counter 16 (counter (state (in_state UpSuspense 2 2 btn_example)) + 1) /\
  fst (fst (button_scan 16 16 (Some (in_state UpSuspense 2 2 btn_example)) 0)) =
    dispatch_click_type 2.
Proof.
  apply (click_event_origin 16 16 (in_state UpSuspense 2 2 btn_example) 0
           1%positive UpSuspense eq_refl eq_refl eq_refl).
Defined.

Lemma long_click_reports_one_click_witness :
  clicks (mk_ev BTN_EVENT_LONG_CLICK 1) = 1.
Proof.
  apply (long_click_reports_one_click 16 16 cfg_example (Some 2%positive)
           stack_garbage (repeat 1 7 ++ [0; 0])).
  - vm_compute. left. reflexivity.
  - reflexivity.
Defined.

Lemma down_short_timeout_run_witness :
  fst (fst (fsm_run 16 16 (in_state UpSuspense 1 1 btn_example)
              (repeat BTN_IO_EVENT_DOWN 5 ++ repeat BTN_IO_EVENT_UP 2))) =
    [BTN_EVENT_NONE; BTN_EVENT_NONE; BTN_EVENT_NONE; BTN_EVENT_DOUBLE_CLICK;
     BTN_EVENT_NONE; BTN_EVENT_POPUP; BTN_EVENT_NONE].
Proof.
  assert (Hr : up_max_cnt (cfg btn_example) < 2 ^ 16) by reflexivity.
  exact (f_equal (fun r => fst (fst r))
           (down_short_timeout_run 16 16 btn_example 1 1 1 1 Hr)).
Defined.

Lemma multi_click_run_witness :
  fst (fst (fsm_run 16 16 (set_handler (Some Up) btn_example)
              (repeat BTN_IO_EVENT_DOWN 2 ++ gap_inputs [(1, 1)%nat] ++
               repeat BTN_IO_EVENT_UP 5))) =
    [BTN_EVENT_NONE; BTN_EVENT_NONE; BTN_EVENT_POPUP; BTN_EVENT_NONE;
     BTN_EVENT_POPUP; BTN_EVENT_NONE; BTN_EVENT_NONE;
     BTN_EVENT_DOUBLE_CLICK; BTN_EVENT_NONE].
Proof.
  assert (Hok : Forall (gap_ok (up_max_cnt cfg_example)) [(1, 1)%nat]).
  { constructor; [| constructor]. unfold gap_ok. cbn. repeat split; lia. }
  exact (f_equal (fun r => fst (fst r))
           (proj1 (multi_click_run 16 16 (set_handler (Some Up) btn_example)
                     2 [(1, 1)%nat] 5
                     (or_intror eq_refl) eq_refl eq_refl eq_refl
                     ltac:(lia) ltac:(cbn; lia) Hok
                     ltac:(vm_compute; lia)))).
Defined.

Lemma click_count_wraps_witness :
  fst (fst (fsm_run 16 2 btn_example
              (repeat BTN_IO_EVENT_DOWN 1 ++
               gap_inputs [(1, 1)%nat; (1, 1)%nat; (1, 1)%nat] ++
               repeat BTN_IO_EVENT_UP 5))) =
    [BTN_EVENT_NONE; BTN_EVENT_POPUP; BTN_EVENT_NONE; BTN_EVENT_POPUP;
     BTN_EVENT_NONE; BTN_EVENT_POPUP; BTN_EVENT_NONE; BTN_EVENT_POPUP;
     BTN_EVENT_NONE; BTN_EVENT_NONE; BTN_EVENT_NONE; BTN_EVENT_NONE].
Proof.
  assert (Hok : Forall (gap_ok (up_max_cnt cfg_example))
                  [(1, 1)%nat; (1, 1)%nat; (1, 1)%nat]).
  { repeat constructor; cbn; lia. }
  exact (f_equal (fun r => fst (fst r))
           (click_count_wraps 16 2 cfg_example (Some 2%positive)
              stack_garbage 1 [(1, 1)%nat; (1, 1)%nat; (1, 1)%nat] 5
              eq_refl ltac:(discriminate) eq_refl ltac:(lia) ltac:(cbn; lia)
              Hok ltac:(vm_compute; lia))).
Defined.

Lemma glitch_is_invisible_witness :
  scan_run 16 16 (Some btn_example) [1; 0; 1; 1; 0] =
    scan_run 16 16 (Some btn_example) [0; 0; 1; 1; 0].
Proof.
  apply (glitch_is_invisible 16 16 btn_example 0 1 [1; 1; 0]).
  - left; reflexivity.
  - right; reflexivity.
  - reflexivity.
  - reflexivity.
Defined.

Lemma active_level_symmetry_witness :
  fst (fst (scan_run 16 16
              (Some (button_ctor (Some (flip_cfg cfg_example))
                       (Some 2%positive) stack_garbage))
              (map flip_sample [1; 1; 0; 0]))) =
    fst (fst (scan_run 16 16 (Some btn_example) [1; 1; 0; 0])).
Proof.
  apply (active_level_symmetry 16 16 cfg_example (Some 2%positive)
           stack_garbage [1; 1; 0; 0]).
  repeat constructor; solve [left; reflexivity | right; reflexivity].
Defined.

Lemma debounce_delays_clean_signal_witness :
  fst (debounce_run btn_example [1; 1; 0; 0; 1]) = [0; 1; 1; 0; 0].
Proof.
  assert (Hok : jit_ok btn_example) by (split; left; reflexivity).
  assert (Hl : Forall is_level [1; 1; 0; 0; 1])
    by (repeat constructor; solve [left; reflexivity | right; reflexivity]).
  exact (proj1 (debounce_delays_clean_signal btn_example [1; 1; 0; 0; 1]
                  Hok Hl eq_refl)).
Defined.

Lemma raw_multi_click_run_witness :
  fst (fst (scan_run 16 16 (Some btn_example)
              (raw_clicks cfg_example 2 [(2, 2)%nat] 5))) =
    [BTN_EVENT_NONE; BTN_EVENT_NONE; BTN_EVENT_NONE; BTN_EVENT_POPUP;
     BTN_EVENT_NONE; BTN_EVENT_NONE; BTN_EVENT_NONE; BTN_EVENT_POPUP;
     BTN_EVENT_NONE; BTN_EVENT_NONE; BTN_EVENT_DOUBLE_CLICK].
Proof.
  assert (Hok : Forall (gap_ok (up_max_cnt cfg_example)) [(2, 2)%nat]).
  { repeat constructor; cbn; lia. }
  assert (Hdeb : Forall gap_debounced [(2, 2)%nat]).
  { repeat constructor. }
  exact (proj1 (raw_multi_click_run 16 16 cfg_example (Some 2%positive)
                  stack_garbage 2 [(2, 2)%nat] 5
                  ltac:(discriminate) eq_refl eq_refl eq_refl ltac:(lia)
                  ltac:(cbn; lia) Hok Hdeb ltac:(vm_compute; lia))).
Defined.

Lemma isolated_presses_are_ignored_witness :
  fst (fst (scan_run 16 16 (Some btn_example) [1; 0; 1; 0; 0; 1])) =
    repeat BTN_EVENT_NONE 6.
Proof.
  apply (isolated_presses_are_ignored 16 16 cfg_example (Some 2%positive)
           stack_garbage [1; 0; 1; 0; 0; 1]).
  - repeat constructor; solve [left; reflexivity | right; reflexivity].
  - reflexivity.
Defined.

Lemma raw_long_click_run_witness :
  fst (fst (scan_run 16 16 (Some btn_example)
              (raw_clicks cfg_example 7 [] 3))) =
    [BTN_EVENT_NONE; BTN_EVENT_NONE; BTN_EVENT_NONE; BTN_EVENT_NONE;
     BTN_EVENT_NONE; BTN_EVENT_NONE; BTN_EVENT_LONG_CLICK; BTN_EVENT_NONE;
     BTN_EVENT_POPUP; BTN_EVENT_NONE].
Proof.
  exact (proj1 (raw_long_click_run 16 16 cfg_example (Some 2%positive)
                  stack_garbage 1 1 ltac:(discriminate) eq_refl)).
Defined.

Lemma idle_is_initial_only_witness :
  exists b' h,
    snd (fst (scan_run 16 16 (Some btn_example) [0])) = Some b' /\
    handler (state b') = Some h /\ h <> Idle.
Proof.
  apply (idle_is_initial_only 16 16 btn_example [0]).
  - reflexivity.
  - discriminate.
Defined.

Lemma scan_run_fsm_run_witness :
  fst (fst (scan_run 16 16 (Some btn_example) [1; 1; 0])) =
    fst (fst (fsm_run 16 16 btn_example
                (map (io_event_of btn_example)
                   (fst (debounce_run btn_example [1; 1; 0]))))).
Proof.
  apply (scan_run_fsm_run 16 16 btn_example [1; 1; 0]); discriminate.
Defined.
